(** * Verification of the CRUD helper layer [utils.db_utils]

    A shallow embedding of [src/utils/db_utils.py] and of the import list of
    [src/utils/__init__.py].  Python values are a small inductive type,
    dictionaries are insertion-ordered association lists, exceptions are
    values of [Exc] carried by an error-and-state monad (an exception leaves
    the side effects performed before it in place), and the ORM session the
    code talks to is an explicit unit-of-work state. *)

From Stdlib Require Import String Ascii List ZArith Bool Lia.
Import ListNotations.
Open Scope string_scope.
Open Scope Z_scope.
Set Warnings "-register-all".

(** ** Python values *)

Module Py.

(** Identity of a Python object (a mapped instance). *)
Definition Ref := nat.

Inductive Value : Type :=
| VNone
| VBool (b : bool)
| VInt (z : Z)
| VStr (s : string)
| VList (l : list Value)
| VTuple (l : list Value)
| VSet (l : list Value).

(** Python's [==] on the values above.  [bool] is a subclass of [int], so
    [True == 1]; containers compare element-wise (a set is kept as the list
    of its elements and compared in that order). *)
Fixpoint value_eqb (a b : Value) : bool :=
  let fix all2 (xs ys : list Value) : bool :=
    match xs, ys with
    | [], [] => true
    | x :: xs', y :: ys' => value_eqb x y && all2 xs' ys'
    | _, _ => false
    end in
  match a, b with
  | VNone, VNone => true
  | VBool x, VBool y => Bool.eqb x y
  | VBool x, VInt y => Z.eqb (if x then 1 else 0) y
  | VInt x, VBool y => Z.eqb x (if y then 1 else 0)
  | VInt x, VInt y => Z.eqb x y
  | VStr x, VStr y => String.eqb x y
  | VList xs, VList ys => all2 xs ys
  | VTuple xs, VTuple ys => all2 xs ys
  | VSet xs, VSet ys => all2 xs ys
  | _, _ => false
  end.

(** [x in l] for a Python list [l]. *)
Definition value_in (x : Value) (l : list Value) : bool :=
  existsb (value_eqb x) l.

(** [isinstance(value, (list, tuple, set))]. *)
Definition isinstance_list_tuple_set (v : Value) : bool :=
  match v with
  | VList _ | VTuple _ | VSet _ => true
  | _ => false
  end.

(** *** Dictionaries: insertion-ordered, as Python's [dict] *)

Definition dict := list (string * Value).

Fixpoint dict_get (d : dict) (k : string) : option Value :=
  match d with
  | [] => None
  | (k', v) :: t => if String.eqb k k' then Some v else dict_get t k
  end.

(** [k in d]. *)
Definition dict_contains (d : dict) (k : string) : bool :=
  match dict_get d k with Some _ => true | None => false end.

(** [d[k] = v]: an existing key keeps its position, a new one goes last. *)
Fixpoint dict_set (d : dict) (k : string) (v : Value) : dict :=
  match d with
  | [] => [(k, v)]
  | (k', v') :: t =>
      if String.eqb k k' then (k', v) :: t else (k', v') :: dict_set t k v
  end.

(** [del d[k]]. *)
Definition dict_del (d : dict) (k : string) : dict :=
  filter (fun kv => negb (String.eqb k (fst kv))) d.

(** [d.update(other)]. *)
Definition dict_update (d other : dict) : dict :=
  fold_left (fun acc kv => dict_set acc (fst kv) (snd kv)) other d.

(** *** Strings *)

(** [raw_key.split("__", 1)] when ["__" in raw_key]: the text before and
    after the first occurrence of the separator; [None] when the separator
    does not occur. *)
Fixpoint split_dunder (s : string) : option (string * string) :=
  match s with
  | EmptyString => None
  | String c rest =>
      match s with
      | String "_" (String "_" after) => Some (EmptyString, after)
      | _ =>
          match split_dunder rest with
          | Some (before, after) => Some (String c before, after)
          | None => None
          end
      end
  end.

(** ["__" in s]. *)
Definition contains_dunder (s : string) : bool :=
  match split_dunder s with Some _ => true | None => false end.

End Py.
Export Py.

(** ** The error taxonomy *)

(** Exceptions (instances of [Exception]).  The three classes of the module
    keep their constructor arguments; [PyException cls text] is an instance
    of any other class [cls], with [text] its [str()]. *)
Inductive Exc : Type :=
| DatabaseError (message : string) (status_code : Z)
| NotFoundError (message : string)
| ValidationError (message : string)
| PyException (cls : string) (text : string).

(** [e.status_code]: [NotFoundError.__init__] passes 404 and
    [ValidationError.__init__] passes 400 to the base class. *)
Definition status_code_of (e : Exc) : option Z :=
  match e with
  | DatabaseError _ c => Some c
  | NotFoundError _ => Some 404
  | ValidationError _ => Some 400
  | PyException _ _ => None
  end.

(** [str(e)]: [DatabaseError.__init__] calls [super().__init__(self.message)]. *)
Definition str (e : Exc) : string :=
  match e with
  | DatabaseError m _ => m
  | NotFoundError m => m
  | ValidationError m => m
  | PyException _ t => t
  end.

(** [isinstance(e, DatabaseError)]. *)
Definition isinstance_DatabaseError (e : Exc) : bool :=
  match e with
  | PyException _ _ => false
  | _ => true
  end.

(** ** Computations that may raise *)

Inductive Result (A : Type) : Type :=
| Return (a : A)
| Raise (e : Exc).
Arguments Return {A} a.
Arguments Raise {A} e.

(** A computation over a state [S]: the state is threaded through an
    exception as well, Python does not undo effects when it raises. *)
Definition M (S A : Type) : Type := S -> Result A * S.

Definition ret {S A} (a : A) : M S A := fun s => (Return a, s).

Definition raise {S A} (e : Exc) : M S A := fun s => (Raise e, s).

Definition bind {S A B} (m : M S A) (k : A -> M S B) : M S B :=
  fun s =>
    match m s with
    | (Return a, s') => k a s'
    | (Raise e, s') => (Raise e, s')
    end.

Declare Scope py_scope.
Delimit Scope py_scope with py.
Notation "x <- m ;; k" := (bind m (fun x => k))
  (at level 61, m at next level, right associativity) : py_scope.
Notation "m ;;; k" := (bind m (fun _ => k))
  (at level 61, right associativity) : py_scope.

(** The same for code without state. *)
Definition bindR {A B} (r : Result A) (k : A -> Result B) : Result B :=
  match r with
  | Return a => k a
  | Raise e => Raise e
  end.

(** ** Mapped entity types and query terms *)

(** A class attribute that is not a mapped column (a method such as
    [model_dump], a class-level object, a name): what Python gives when the
    code uses it as if it were a column.  [plain_op op value] is the outcome
    of the operator the filter key names ([attr == value] for ["eq"],
    [attr < value] for ["lt"], [attr.in_(value)] for ["in"], ...): a Python
    bool, or the exception raised; [plain_desc] is the exception
    [attr.desc()] raises, [plain_order] the exception [query.order_by]
    raises when it is handed the attribute. *)
Record Plain : Type := {
  plain_op : string -> Value -> Result bool;
  plain_desc : Exc;
  plain_order : Exc
}.

(** A mapped class: its [__name__], its mapped columns, the names of its
    primary-key columns, and its other attributes. *)
Record Model : Type := {
  model_name : string;
  fields : list string;
  primary_key : list string;
  plain : list (string * Plain)
}.

(** [type(value).__name__]. *)
Definition type_name (v : Value) : string :=
  match v with
  | VNone => "NoneType"
  | VBool _ => "bool"
  | VInt _ => "int"
  | VStr _ => "str"
  | VList _ => "list"
  | VTuple _ => "tuple"
  | VSet _ => "set"
  end.

(** The Python operator behind an ordering operator of the filter keys, and
    the method behind the others. *)
Definition op_symbol (op : string) : string :=
  if String.eqb op "lt" then "<"
  else if String.eqb op "lte" then "<="
  else if String.eqb op "gt" then ">"
  else ">=".

Definition op_method (op : string) : string :=
  if String.eqb op "in" then "in_" else op.

(** A method of the class, such as [model_dump], reached through the class:
    a function.  It equals no value, is not ordered, and has no attribute
    [in_], [contains], [like] or [desc]; [order_by] takes a callable for a
    lambda and calls it without arguments. *)
Definition method (qualname : string) : Plain :=
  {| plain_op := fun op value =>
       if String.eqb op "eq" then Return false
       else if String.eqb op "ne" then Return true
       else if existsb (String.eqb op) ["lt"; "lte"; "gt"; "gte"] then
         Raise (PyException "TypeError"
                  ("'" ++ op_symbol op
                   ++ "' not supported between instances of 'function' and '"
                   ++ type_name value ++ "'"))
       else
         Raise (PyException "AttributeError"
                  ("'function' object has no attribute '"
                   ++ op_method op ++ "'"));
     plain_desc :=
       PyException "AttributeError"
         "'function' object has no attribute 'desc'";
     plain_order :=
       PyException "TypeError"
         (qualname ++ "() missing 1 required positional argument: 'self'") |}.

(** Whether [field] names a mapped column of the class. *)
Definition is_field (model : Model) (field : string) : bool :=
  existsb (String.eqb field) (fields model).

Fixpoint find_plain (attrs : list (string * Plain)) (name : string)
  : option Plain :=
  match attrs with
  | [] => None
  | (n, p) :: rest => if String.eqb name n then Some p else find_plain rest name
  end.

(** The attribute [field] of the class when it is not a mapped column. *)
Definition plain_attr (model : Model) (field : string) : option Plain :=
  if is_field model field then None else find_plain (plain model) field.

(** [hasattr(model, field)]: true of every attribute of the class, mapped
    column or not. *)
Definition hasattr (model : Model) (field : string) : bool :=
  is_field model field
  || match find_plain (plain model) field with
     | Some _ => true
     | None => false
     end.

(** [getattr(model, field)]: the attribute of the class, by class and
    name. *)
Record Column : Type := {
  col_model : string;
  col_field : string
}.

Definition getattr (model : Model) (field : string) : Column :=
  {| col_model := model_name model; col_field := field |}.

(** The expressions the builder appends: [col == value], [col != value],
    [col < value], ..., [col.in_(value)], [col.contains(value)],
    [col.like(value)] on a mapped column, which are SQL expressions; on an
    attribute that is not a mapped column the same Python expression is a
    bool, kept in [CPlain] with the attribute, operator and value it came
    from. *)
Inductive Clause : Type :=
| CEq (col : Column) (value : Value)
| CNe (col : Column) (value : Value)
| CLt (col : Column) (value : Value)
| CLte (col : Column) (value : Value)
| CGt (col : Column) (value : Value)
| CGte (col : Column) (value : Value)
| CIn (col : Column) (value : Value)
| CContains (col : Column) (value : Value)
| CLike (col : Column) (value : Value)
| CPlain (col : Column) (op : string) (value : Value) (b : bool).

(** A sort term: the column itself (ascending) or [col.desc()]; [OPlain] is
    an attribute that is not a mapped column, appended as it is, with the
    exception [order_by] raises for it. *)
Inductive OrderTerm : Type :=
| Asc (col : Column)
| Desc (col : Column)
| OPlain (col : Column) (refusal : Exc).

(** A [select(obj)] statement with its [where] and [order_by] parts. *)
Record Stmt : Type := {
  stmt_model : Model;
  stmt_where : list Clause;
  stmt_order : list OrderTerm
}.

Definition select (obj : Model) : Stmt :=
  {| stmt_model := obj; stmt_where := []; stmt_order := [] |}.

Definition where_ (stmt : Stmt) (clauses : list Clause) : Stmt :=
  {| stmt_model := stmt_model stmt;
     stmt_where := stmt_where stmt ++ clauses;
     stmt_order := stmt_order stmt |}.

Definition order_by_ (stmt : Stmt) (order_cols : list OrderTerm) : Stmt :=
  {| stmt_model := stmt_model stmt;
     stmt_where := stmt_where stmt;
     stmt_order := stmt_order stmt ++ order_cols |}.

(** The first of the terms that [order_by] refuses, with its exception. *)
Fixpoint refused (order_cols : list OrderTerm) : option Exc :=
  match order_cols with
  | [] => None
  | OPlain _ e :: _ => Some e
  | _ :: rest => refused rest
  end.

(** [query.order_by( *order_cols )]: the terms are added to the statement
    unless one of them is no SQL expression. *)
Definition query_order_by (stmt : Stmt) (order_cols : list OrderTerm)
  : Result Stmt :=
  match refused order_cols with
  | Some e => Raise e
  | None => Return (order_by_ stmt order_cols)
  end.

(** ** [_build_clauses] *)

(** The head of the loop body: [field, op = raw_key.split("__", 1)] when the
    key holds ["__"], [field, op = raw_key, "eq"] otherwise. *)
Definition parse_key (raw_key : string) : string * string :=
  match split_dunder raw_key with
  | Some (field, op) => (field, op)
  | None => (raw_key, "eq")
  end.

(** The operator of a filter key applied to [getattr(model, field)]: the
    SQL expression [sql] when the attribute is a mapped column, what Python
    gives for the attribute otherwise. *)
Definition apply_op (model : Model) (field op : string) (value : Value)
  (sql : Clause) : Result Clause :=
  match plain_attr model field with
  | None => Return sql
  | Some p =>
      bindR (plain_op p op value)
            (fun b => Return (CPlain (getattr model field) op value b))
  end.

(** One iteration of the loop of [_build_clauses]: the clause appended for
    the entry [(raw_key, value)], or the exception raised. *)
Definition build_clause (model : Model) (raw_key : string) (value : Value)
  : Result Clause :=
  let (field, op) := parse_key raw_key in
  if negb (hasattr model field) then
    Raise (ValidationError
             ("Field '" ++ field ++ "' not found on " ++ model_name model))
  else
    let col := getattr model field in
    if String.eqb op "eq" then apply_op model field op value (CEq col value)
    else if String.eqb op "ne" then
      apply_op model field op value (CNe col value)
    else if String.eqb op "lt" then
      apply_op model field op value (CLt col value)
    else if String.eqb op "lte" then
      apply_op model field op value (CLte col value)
    else if String.eqb op "gt" then
      apply_op model field op value (CGt col value)
    else if String.eqb op "gte" then
      apply_op model field op value (CGte col value)
    else if String.eqb op "in" then
      if negb (isinstance_list_tuple_set value) then
        Raise (ValidationError
                 ("Value for '" ++ raw_key ++ "' must be a list/tuple for __in"))
      else apply_op model field op value (CIn col value)
    else if String.eqb op "contains" then
      apply_op model field op value (CContains col value)
    else if String.eqb op "like" then
      apply_op model field op value (CLike col value)
    else Raise (ValidationError ("Unsupported filter operation: " ++ op)).

(** The loop over [filters.items()], with [clauses] the list built so far. *)
Fixpoint build_clauses_loop (model : Model) (items : dict)
  (clauses : list Clause) : Result (list Clause) :=
  match items with
  | [] => Return clauses
  | (raw_key, value) :: rest =>
      bindR (build_clause model raw_key value)
            (fun c => build_clauses_loop model rest (clauses ++ [c]))
  end.

Definition _build_clauses (model : Model) (filters : dict)
  : Result (list Clause) :=
  build_clauses_loop model filters [].

(** ** [_order_by] *)

(** [getattr(obj, fname).desc()]. *)
Definition desc (obj : Model) (fname : string) : Result OrderTerm :=
  match plain_attr obj fname with
  | None => Return (Desc (getattr obj fname))
  | Some p => Raise (plain_desc p)
  end.

(** [getattr(obj, fname)], as a sort term. *)
Definition asc (obj : Model) (fname : string) : OrderTerm :=
  match plain_attr obj fname with
  | None => Asc (getattr obj fname)
  | Some p => OPlain (getattr obj fname) (plain_order p)
  end.

(** One iteration of the loop of [_order_by]. *)
Definition order_col (obj : Model) (o : string) : Result OrderTerm :=
  match o with
  | String "-" fname =>
      if negb (hasattr obj fname) then
        Raise (ValidationError ("Order field '" ++ fname ++ "' not found"))
      else desc obj fname
  | fname =>
      if negb (hasattr obj fname) then
        Raise (ValidationError ("Order field '" ++ fname ++ "' not found"))
      else Return (asc obj fname)
  end.

Fixpoint order_cols_loop (obj : Model) (order_by : list string)
  (order_cols : list OrderTerm) : Result (list OrderTerm) :=
  match order_by with
  | [] => Return order_cols
  | o :: rest =>
      bindR (order_col obj o)
            (fun t => order_cols_loop obj rest (order_cols ++ [t]))
  end.

Definition _order_by (order_by : list string) (obj : Model) (query : Stmt)
  : Result Stmt :=
  bindR (order_cols_loop obj order_by [])
        (fun order_cols => query_order_by query order_cols).

(** ** [db_error] *)

(** The decorator, applied to a computation: a raised [DatabaseError] (or
    subclass) goes through, any other exception [e] is replaced by
    [DatabaseError(str(e))], whose status code is the default 500. *)
Definition db_error {S A} (func : M S A) : M S A :=
  fun s =>
    match func s with
    | (Return r, s') => (Return r, s')
    | (Raise e, s') =>
        if isinstance_DatabaseError e then (Raise e, s')
        else (Raise (DatabaseError (str e) 500), s')
    end.

(** The exception [db_error] raises when the function raised [e]. *)
Definition reraised (e : Exc) : Exc :=
  if isinstance_DatabaseError e then e else DatabaseError (str e) 500.

(** ** The ORM session

    [sqlmodel.Session] is a collaborator outside this repository.  It is
    modelled as a unit of work over one transaction: the instances in memory
    ([heap]), the rows already flushed, each with the instance that
    represents it in the identity map ([rows]), the pending instances
    ([new]) and those marked for deletion ([deleted]).  The engine is taken
    to accept what is flushed: an insert it refuses (a key already in the
    table, a constraint of the schema), connection failures and rows never
    loaded are outside the model. *)

Module Orm.

Record Obj : Type := {
  obj_model : Model;
  obj_dict : dict
}.

Record Row : Type := {
  row_obj : Ref;
  row_table : string;
  row_vals : dict
}.

Record Session : Type := {
  heap : list Obj;
  rows : list Row;
  new : list Ref;
  deleted : list Ref
}.

Fixpoint list_set {A} (l : list A) (i : nat) (x : A) : list A :=
  match l, i with
  | [], _ => []
  | _ :: t, O => x :: t
  | h :: t, S i' => h :: list_set t i' x
  end.

Definition mem (r : Ref) (l : list Ref) : bool := existsb (Nat.eqb r) l.

Definition set_dict (r : Ref) (d : dict) (s : Session) : Session :=
  match nth_error (heap s) r with
  | Some o =>
      {| heap := list_set (heap s) r {| obj_model := obj_model o; obj_dict := d |};
         rows := rows s; new := new s; deleted := deleted s |}
  | None => s
  end.

Definition find_row (r : Ref) (rs : list Row) : option Row :=
  find (fun row => Nat.eqb (row_obj row) r) rs.

Definition has_row (r : Ref) (rs : list Row) : bool :=
  match find_row r rs with Some _ => true | None => false end.

Definition value_or_none (o : option Value) : Value :=
  match o with Some v => v | None => VNone end.

(** The primary-key identity of a row: the key value, or the tuple of the
    key values of a composite key. *)
Definition identity (model : Model) (d : dict) : Value :=
  match primary_key model with
  | [k] => value_or_none (dict_get d k)
  | ks => VTuple (map (fun k => value_or_none (dict_get d k)) ks)
  end.

(** *** Flush *)

(** The next value of an integer key, as SQLite, the engine of the default
    [DATABASE_URL], assigns it: one more than the largest in the table. *)
Definition next_pk (table k : string) (rs : list Row) : Z :=
  1 + fold_left
        (fun acc row =>
           if String.eqb (row_table row) table then
             match dict_get (row_vals row) k with
             | Some (VInt z) => Z.max acc z
             | _ => acc
             end
           else acc)
        rs 0.

(** INSERT of a pending instance, accepted by the engine; a single key left
    at [None] is generated. *)
Definition insert_one (s : Session) (r : Ref) : Session :=
  match nth_error (heap s) r with
  | None => s
  | Some o =>
      let table := model_name (obj_model o) in
      let d :=
        match primary_key (obj_model o) with
        | [k] =>
            match value_or_none (dict_get (obj_dict o) k) with
            | VNone => dict_set (obj_dict o) k (VInt (next_pk table k (rows s)))
            | _ => obj_dict o
            end
        | _ => obj_dict o
        end in
      {| heap := list_set (heap s) r {| obj_model := obj_model o; obj_dict := d |};
         rows := rows s ++ [{| row_obj := r; row_table := table; row_vals := d |}];
         new := new s; deleted := deleted s |}
  end.

(** UPDATE of a row from the attributes of its instance. *)
Definition sync_row (h : list Obj) (row : Row) : Row :=
  match nth_error h (row_obj row) with
  | Some o => {| row_obj := row_obj row; row_table := row_table row;
                 row_vals := obj_dict o |}
  | None => row
  end.

(** [session.flush()]: pending instances are inserted, changed attributes
    written, marked rows deleted. *)
Definition flush (s : Session) : Session :=
  let s1 := fold_left insert_one (new s) s in
  {| heap := heap s1;
     rows := filter (fun row => negb (mem (row_obj row) (deleted s)))
               (map (sync_row (heap s1)) (rows s1));
     new := [];
     deleted := [] |}.

Definition session_flush : M Session unit :=
  fun s => (Return tt, flush s).

(** *** Adding, deleting, refreshing *)

(** [session.add(r)]: a transient instance becomes pending; an instance of
    the session stays and is no longer marked for deletion. *)
Definition add_one (s : Session) (r : Ref) : Session :=
  if has_row r (rows s) then
    {| heap := heap s; rows := rows s; new := new s;
       deleted := filter (fun x => negb (Nat.eqb x r)) (deleted s) |}
  else if mem r (new s) then s
  else {| heap := heap s; rows := rows s; new := new s ++ [r];
          deleted := deleted s |}.

Definition session_add (r : Ref) : M Session unit :=
  fun s => (Return tt, add_one s r).

Definition session_add_all (l : list Ref) : M Session unit :=
  fun s => (Return tt, fold_left add_one l s).

Definition InvalidRequestError (text : string) : Exc :=
  PyException "InvalidRequestError" text.

(** [session.delete(r)]: marks a persistent instance. *)
Definition session_delete (r : Ref) : M Session unit :=
  fun s =>
    if has_row r (rows s) then
      (Return tt,
       {| heap := heap s; rows := rows s; new := new s;
          deleted := if mem r (deleted s) then deleted s else deleted s ++ [r] |})
    else (Raise (InvalidRequestError "Instance is not persisted"), s).

(** [session.refresh(r)], for an instance with a row: its attributes are
    expired, the session autoflushes, and the attributes are loaded from the
    row again.  Expiring drops the changes made to the attributes since the
    last flush (SQLAlchemy documents that [expire] and [refresh] discard all
    un-flushed changes on the object), so the autoflush writes nothing for
    this instance and the load brings the values of the row back. *)
Definition session_refresh (r : Ref) : M Session unit :=
  fun s =>
    match find_row r (rows s) with
    | None =>
        (Raise (InvalidRequestError
                  "Instance is not persistent within this Session"), s)
    | Some row =>
        let s1 := flush (set_dict r (row_vals row) s) in
        match find_row r (rows s1) with
        | Some row1 => (Return tt, set_dict r (row_vals row1) s1)
        | None => (Raise (InvalidRequestError "Could not refresh instance"), s1)
        end
    end.

(** *** Reading *)

Definition find_identity (model : Model) (id : Value) (rs : list Row)
  : option Ref :=
  option_map row_obj
    (find (fun row => String.eqb (row_table row) (model_name model)
                      && value_eqb (identity model (row_vals row)) id) rs).

(** [session.get(obj, id)]: the identity map first, then the table, after an
    autoflush. *)
Definition session_get (obj : Model) (id : Value) : M Session (option Ref) :=
  fun s =>
    match find_identity obj id (rows s) with
    | Some r => (Return (Some r), s)
    | None =>
        let s1 := flush s in
        (Return (find_identity obj id (rows s1)), s1)
    end.

(** Order of the engine on values: [None] first, then by value. *)
Definition value_ltb (a b : Value) : bool :=
  match a, b with
  | VNone, VNone => false
  | VNone, _ => true
  | VBool x, VBool y => negb x && y
  | VInt x, VInt y => Z.ltb x y
  | VStr x, VStr y => String.ltb x y
  | _, _ => false
  end.

(** [LIKE]: [%] stands for any text, [_] for one character. *)
Fixpoint like_match (p s : string) : bool :=
  match p with
  | EmptyString => match s with EmptyString => true | _ => false end
  | String "%" p' =>
      (fix any (t : string) : bool :=
         like_match p' t
         || match t with EmptyString => false | String _ t' => any t' end) s
  | String "_" p' =>
      match s with String _ s' => like_match p' s' | EmptyString => false end
  | String c p' =>
      match s with
      | String d s' => Ascii.eqb c d && like_match p' s'
      | EmptyString => false
      end
  end.

Definition not_null (v : Value) : bool :=
  match v with VNone => false | _ => true end.

(** A clause on the values of a row; a comparison with a null column is not
    satisfied, [== None] and [!= None] are the null tests; a Python bool
    stands for the constant. *)
Definition eval_clause (c : Clause) (vals : dict) : bool :=
  let cell col := value_or_none (dict_get vals (col_field col)) in
  match c with
  | CEq col v => value_eqb (cell col) v
  | CNe col v =>
      match v with
      | VNone => not_null (cell col)
      | _ => not_null (cell col) && negb (value_eqb (cell col) v)
      end
  | CLt col v => not_null (cell col) && value_ltb (cell col) v
  | CLte col v =>
      not_null (cell col) && (value_ltb (cell col) v || value_eqb (cell col) v)
  | CGt col v => not_null (cell col) && value_ltb v (cell col)
  | CGte col v =>
      not_null (cell col) && (value_ltb v (cell col) || value_eqb (cell col) v)
  | CIn col v =>
      match v with
      | VList l | VTuple l | VSet l => value_in (cell col) l
      | _ => false
      end
  | CContains col v =>
      match cell col, v with
      | VStr s, VStr t => like_match ("%" ++ t ++ "%") s
      | _, _ => false
      end
  | CLike col v =>
      match cell col, v with
      | VStr s, VStr p => like_match p s
      | _, _ => false
      end
  | CPlain _ _ _ b => b
  end.

(** Whether row values [a] sort strictly before [b] under the terms. *)
Fixpoint row_before (terms : list OrderTerm) (a b : dict) : bool :=
  match terms with
  | [] => false
  | t :: rest =>
      let (x, y) :=
        match t with
        | Asc col => (value_or_none (dict_get a (col_field col)),
                      value_or_none (dict_get b (col_field col)))
        | Desc col => (value_or_none (dict_get b (col_field col)),
                       value_or_none (dict_get a (col_field col)))
        | OPlain _ _ => (VNone, VNone)
        end in
      value_ltb x y || (negb (value_ltb y x) && row_before rest a b)
  end.

Fixpoint insert_row (terms : list OrderTerm) (x : Row) (l : list Row)
  : list Row :=
  match l with
  | [] => [x]
  | y :: t =>
      if row_before terms (row_vals x) (row_vals y) then x :: y :: t
      else y :: insert_row terms x t
  end.

Definition sort_rows (terms : list OrderTerm) (l : list Row) : list Row :=
  fold_right (insert_row terms) [] l.

(** The rows a statement selects, as their instances. *)
Definition run_stmt (stmt : Stmt) (rs : list Row) : list Ref :=
  map row_obj
    (sort_rows (stmt_order stmt)
       (filter (fun row =>
                  String.eqb (row_table row) (model_name (stmt_model stmt))
                  && forallb (fun c => eval_clause c (row_vals row))
                       (stmt_where stmt))
          rs)).

(** [session.exec(stmt).all()], after the autoflush. *)
Definition session_exec_all (stmt : Stmt) : M Session (list Ref) :=
  fun s => let s1 := flush s in (Return (run_stmt stmt (rows s1)), s1).

(** [session.exec(stmt).one_or_none()]. *)
Definition session_exec_one_or_none (stmt : Stmt) : M Session (option Ref) :=
  fun s =>
    let s1 := flush s in
    match run_stmt stmt (rows s1) with
    | [] => (Return None, s1)
    | [r] => (Return (Some r), s1)
    | _ =>
        (Raise (PyException "MultipleResultsFound"
                  "Multiple rows were found when one or none was required"), s1)
    end.

(** *** Instances *)

(** The call of the class [obj] with [vals] as keyword arguments: a new
    transient instance with the mapped fields taken out
    of [vals], [None] where [vals] has none. *)
Definition construct (obj : Model) (vals : dict) : M Session Ref :=
  fun s =>
    (Return (length (heap s)),
     {| heap := heap s ++
                [{| obj_model := obj;
                    obj_dict := map (fun f => (f, value_or_none (dict_get vals f)))
                                  (fields obj) |}];
        rows := rows s; new := new s; deleted := deleted s |}).

(** [instance.model_dump()]. *)
Definition model_dump (r : Ref) (s : Session) : dict :=
  match nth_error (heap s) r with
  | Some o => obj_dict o
  | None => []
  end.

(** [setattr(instance, key, value)]; a name that is not a field of the class
    is refused with [ValueError]. *)
Definition setattr (r : Ref) (key : string) (value : Value) : M Session unit :=
  fun s =>
    match nth_error (heap s) r with
    | Some o =>
        if is_field (obj_model o) key then
          (Return tt, set_dict r (dict_set (obj_dict o) key value) s)
        else
          (Raise (PyException "ValueError"
                    ("object has no field '" ++ key ++ "'")), s)
    | None => (Return tt, s)
    end.

End Orm.
Export Orm.

(** ** CRUD operations

    The [session] argument of every operation is the state of the
    computation. *)

Open Scope py_scope.

(** What the operations return: [None], an instance, a list of instances or
    a boolean. *)
Inductive Ret : Type :=
| RNone
| RObj (r : Ref)
| RList (l : list Ref)
| RBool (b : bool).

(** [not x]; a mapped instance is true. *)
Definition falsy (x : Ret) : bool :=
  match x with
  | RNone => true
  | RObj _ => false
  | RList [] => true
  | RList _ => false
  | RBool b => negb b
  end.

Definition of_option (o : option Ref) : Ret :=
  match o with Some r => RObj r | None => RNone end.

Definition lift {S A} (r : Result A) : M S A := fun s => (r, s).

(** A [for] loop whose body may raise. *)
Fixpoint for_each {S A} (l : list A) (body : A -> M S unit) : M S unit :=
  match l with
  | [] => ret tt
  | x :: rest => body x ;;; for_each rest body
  end.

(** [get(session, obj, filters=None, order_by=None, one_or_none=False)], for
    [obj] a mapped class. *)
Definition get (obj : Model) (filters : option dict)
  (order_by : option (list string)) (one_or_none : bool) : M Session Ret :=
  db_error (
    let stmt := select obj in
    stmt <- match filters with
            | Some ((_ :: _) as filters) =>
                clauses <- lift (_build_clauses obj filters) ;;
                ret (match clauses with
                     | [] => stmt
                     | _ => where_ stmt clauses
                     end)
            | _ => ret stmt
            end ;;
    stmt <- match order_by with
            | Some ((_ :: _) as order_by) => lift (_order_by order_by obj stmt)
            | _ => ret stmt
            end ;;
    if one_or_none then
      r <- session_exec_one_or_none stmt ;; ret (of_option r)
    else
      l <- session_exec_all stmt ;; ret (RList l)).

Definition get_by_id (obj : Model) (id : Value) : M Session Ret :=
  db_error (r <- session_get obj id ;; ret (of_option r)).

(** The argument of [save]: one instance, or a list of instances. *)
Inductive ObjOrList : Type :=
| One (r : Ref)
| Many (l : list Ref).

Definition save (new_obj : ObjOrList) : M Session Ret :=
  db_error (
    let new_obj := match new_obj with
                   | Many l => l
                   | One r => [r]
                   end in
    session_add_all new_obj ;;;
    for_each new_obj (fun obj => session_flush ;;; session_refresh obj) ;;;
    if (1 <? length new_obj)%nat then ret (RList new_obj)
    else match new_obj with
         | x :: _ => ret (RObj x)
         | [] => raise (PyException "IndexError" "list index out of range")
         end).

Definition delete (obj : Model) (id : Value) : M Session Ret :=
  db_error (
    db_obj <- session_get obj id ;;
    match db_obj with
    | None => raise (NotFoundError (model_name obj ++ " not found"))
    | Some db_obj => session_delete db_obj ;;; ret (RBool true)
    end).

(** The payload of [update]: each field of the schema with its value and
    whether the caller set it. *)
Record PayloadField : Type := {
  pf_name : string;
  pf_value : Value;
  pf_set : bool
}.

Definition Payload := list PayloadField.

(** [vals.model_dump(exclude_unset=True)]. *)
Definition model_dump_exclude_unset (vals : Payload) : dict :=
  map (fun f => (pf_name f, pf_value f)) (filter pf_set vals).

(** Lines 279 to 282 of [update]: the dictionary the attributes are set
    from. *)
Definition merged_dict (db_result_dict : dict) (vals : Payload) : dict :=
  let db_result_dict :=
    dict_update db_result_dict (model_dump_exclude_unset vals) in
  if dict_contains db_result_dict "id" then dict_del db_result_dict "id"
  else db_result_dict.

Definition update (obj : Model) (id : Value) (vals : Payload)
  : M Session Ret :=
  db_error (
    db_result <- session_get obj id ;;
    match db_result with
    | None => raise (NotFoundError (model_name obj ++ " not found"))
    | Some db_result =>
        db_result_dict <- (fun s => (Return (model_dump db_result s), s)) ;;
        let db_result_dict := merged_dict db_result_dict vals in
        for_each db_result_dict
          (fun kv => setattr db_result (fst kv) (snd kv)) ;;;
        session_add db_result ;;;
        session_refresh db_result ;;;
        ret (RObj db_result)
    end).

(** The first loop of [get_or_create] and [get_or_convert]: whether it
    returns [None]. *)
Fixpoint blank_filter (items : dict) : bool :=
  match items with
  | [] => false
  | (field, val) :: rest =>
      if value_in val [VNone; VStr ""] then true else blank_filter rest
  end.

(** Lines 308 to 311, and again 334 to 337: the lookup both functions make,
    by key when the filters hold an [id], through [get] otherwise. *)
Definition lookup (obj : Model) (filters : dict) : M Session Ret :=
  if dict_contains filters "id"
  then get_by_id obj (value_or_none (dict_get filters "id"))
  else get obj (Some filters) None true.

Definition get_or_create (obj : Model) (vals : dict) (filters : dict)
  : M Session Ret :=
  if blank_filter filters then ret RNone
  else
    db_result <- lookup obj filters ;;
    if falsy db_result then
      instance <- construct obj vals ;; save (One instance)
    else ret db_result.

Definition get_or_convert (obj : Model) (vals : dict) (filters : dict)
  : M Session Ret :=
  if blank_filter filters then ret RNone
  else
    db_result <- lookup obj filters ;;
    if falsy db_result then
      instance <- construct obj vals ;; ret (RObj instance)
    else ret db_result.

(** The operations decorated with [db_error], as calls. *)
Inductive CrudCall : Type :=
| CallGet (obj : Model) (filters : option dict)
    (order_by : option (list string)) (one_or_none : bool)
| CallGetById (obj : Model) (id : Value)
| CallSave (new_obj : ObjOrList)
| CallDelete (obj : Model) (id : Value)
| CallUpdate (obj : Model) (id : Value) (vals : Payload).

Definition run_call (c : CrudCall) : M Session Ret :=
  match c with
  | CallGet obj filters order_by one_or_none =>
      get obj filters order_by one_or_none
  | CallGetById obj id => get_by_id obj id
  | CallSave new_obj => save new_obj
  | CallDelete obj id => delete obj id
  | CallUpdate obj id vals => update obj id vals
  end.

(** *** Reading a clause and a filter entry back *)


Definition clause_col (c : Clause) : Column :=
  match c with
  | CEq col _ | CNe col _ | CLt col _ | CLte col _ | CGt col _ | CGte col _
  | CIn col _ | CContains col _ | CLike col _ | CPlain col _ _ _ => col
  end.







(** The field an order name stands for, and its direction. *)
Definition order_field (o : string) : string :=
  match o with
  | String "-" fname => fname
  | _ => o
  end.

Definition descending (o : string) : bool :=
  match o with
  | String "-" _ => true
  | _ => false
  end.

(** The sort term of an order name on a mapped column. *)
Definition order_term (obj : Model) (o : string) : OrderTerm :=
  if descending o then Desc (getattr obj (order_field o))
  else Asc (getattr obj (order_field o)).

(** ** [db_commit] *)

(** An argument of a decorated function: a [Session] object, or anything
    else. *)
Inductive Arg : Type :=
| ASession (sid : nat)
| AOther (v : Value).

Definition kwargs_get (kwargs : list (string * Arg)) (k : string)
  : option Arg :=
  option_map snd (find (fun kv => String.eqb k (fst kv)) kwargs).

Definition _extract_session (args : list Arg) (kwargs : list (string * Arg))
  : option nat :=
  match kwargs_get kwargs "session" with
  | Some (ASession s) => Some s
  | _ =>
      match kwargs_get kwargs "db" with
      | Some (ASession s) => Some s
      | _ =>
          (fix loop (args : list Arg) : option nat :=
             match args with
             | [] => None
             | ASession s :: _ => Some s
             | _ :: rest => loop rest
             end) args
      end
  end.

(** The calls the wrapper itself makes on the session it found. *)
Inductive SessionCall : Type :=
| Commit (sid : nat)
| Rollback (sid : nat).

Section DbCommit.

(** The world the decorated function runs in, and the two methods of the
    session the wrapper uses; each returns the exception it raised, if
    any. *)
Context {W T : Type}.
Variable session_commit : nat -> W -> option Exc * W.
Variable session_rollback : nat -> W -> option Exc * W.

(** The [except Exception] branch of the wrapper, entered with [e]. *)
Definition on_exception (session : option nat) (e : Exc) (w : W)
  : Result T * W * list SessionCall :=
  match session with
  | Some s =>
      (* a failure of the rollback is passed over *)
      let (_, w') := session_rollback s w in
      (Raise e, w', [Rollback s])
  | None => (Raise e, w, [])
  end.

(** The wrapper; the third component lists its own session calls. *)
Definition db_commit
  (func : list Arg -> list (string * Arg) -> M W T)
  (args : list Arg) (kwargs : list (string * Arg)) (w : W)
  : Result T * W * list SessionCall :=
  let session := _extract_session args kwargs in
  match func args kwargs w with
  | (Return result, w1) =>
      match session with
      | Some s =>
          match session_commit s w1 with
          | (None, w2) => (Return result, w2, [Commit s])
          | (Some e, w2) =>
              let '(r, w3, calls) := on_exception session e w2 in
              (r, w3, Commit s :: calls)
          end
      | None => (Return result, w1, [])
      end
  | (Raise e, w1) => on_exception session e w1
  end.

End DbCommit.

(** ** The package interface, [utils/__init__.py] *)

Module Package.

(** The names bound at the top level of [utils/db.py]. *)
Definition db_names : list string :=
  ["os"; "asynccontextmanager"; "Any"; "Generator"; "SQLModel"; "Session";
   "create_engine"; "Engine"; "DATABASE_URL"; "_engine"; "get_engine";
   "get_session"; "create_db_and_tables"; "lifespan"].

(** The names bound at the top level of [utils/db_utils.py]. *)
Definition db_utils_names : list string :=
  ["Any"; "Dict"; "List"; "Optional"; "Tuple"; "Union"; "functools";
   "Session"; "select"; "DatabaseError"; "NotFoundError"; "ValidationError";
   "_build_clauses"; "_order_by"; "db_error"; "_extract_session";
   "db_commit"; "get"; "get_by_id"; "save"; "delete"; "update";
   "get_or_create"; "get_or_convert"].

Definition module_names (module : string) : list string :=
  if String.eqb module ".db" then db_names
  else if String.eqb module ".db_utils" then db_utils_names
  else [].

(** [from module import names]. *)
Record ImportFrom : Type := {
  imp_module : string;
  imp_names : list string
}.

(** The import statements of [__init__.py], in order. *)
Definition init_imports : list ImportFrom :=
  [ {| imp_module := ".db";
       imp_names := ["DATABASE_URL"; "get_engine"; "get_session";
                     "create_db_and_tables"; "lifespan"] |};
    {| imp_module := ".db_utils";
       imp_names := ["DatabaseError"; "NotFoundError"; "ValidationError"] |};
    {| imp_module := ".db_utils";
       imp_names := ["db_error"; "db_commit"] |};
    {| imp_module := ".db_utils";
       imp_names := ["get"; "get_by_id"; "save"; "save_all"; "delete";
                     "update"; "get_or_create"; "get_or_convert"] |} ].

(** [__all__]. *)
Definition all_names : list string :=
  ["DATABASE_URL"; "get_engine"; "get_session"; "create_db_and_tables";
   "lifespan"; "DatabaseError"; "NotFoundError"; "ValidationError";
   "db_error"; "db_commit"; "get"; "get_by_id"; "save"; "save_all";
   "delete"; "update"; "get_or_create"; "get_or_convert"].

Definition ImportError (name module : string) : Exc :=
  PyException "ImportError"
    ("cannot import name '" ++ name ++ "' from 'utils" ++ module ++ "'").

(** One import statement: every name is looked up in the module and bound
    in the namespace [ns] of the package; a missing name raises. *)
Fixpoint import_names (module : string) (names : list string)
  (ns : list string) : Result (list string) :=
  match names with
  | [] => Return ns
  | n :: rest =>
      if existsb (String.eqb n) (module_names module)
      then import_names module rest (ns ++ [n])
      else Raise (ImportError n module)
  end.

Fixpoint run_imports (stmts : list ImportFrom) (ns : list string)
  : Result (list string) :=
  match stmts with
  | [] => Return ns
  | st :: rest =>
      bindR (import_names (imp_module st) (imp_names st) ns)
            (fun ns' => run_imports rest ns')
  end.

(** [import utils]: the namespace of the package once its body has run. *)
Definition import_package : Result (list string) :=
  run_imports init_imports [].

(** [from utils import name]. *)
Definition from_package_import (name : string) : Result string :=
  bindR import_package
        (fun ns =>
           if existsb (String.eqb name) ns then Return name
           else Raise (ImportError name "")).

End Package.


(** ** Notions the statements use *)

(** The first [Session] among the positional arguments. *)
Fixpoint first_session (args : list Arg) : option nat :=
  match args with
  | [] => None
  | ASession s :: _ => Some s
  | AOther _ :: rest => first_session rest
  end.

(** Whether a keyword argument is present and a [Session]. *)
Definition kw_session (kwargs : list (string * Arg)) (k : string)
  : option nat :=
  match kwargs_get kwargs k with
  | Some (ASession s) => Some s
  | _ => None
  end.

Definition commits (calls : list SessionCall) : nat :=
  length (filter (fun c => match c with Commit _ => true | _ => false end)
            calls).

(** The instances handed to [save]. *)
Definition instances (new_obj : ObjOrList) : list Ref :=
  match new_obj with
  | One r => [r]
  | Many l => l
  end.

(** An instance in memory. *)
Definition live (s : Session) (r : Ref) : bool :=
  (r <? length (heap s))%nat.

(** Sessions the operations can reach: every row and every pending instance
    refers to an instance in memory, and only instances with a row are
    marked for deletion. *)
Definition wf_session (s : Session) : bool :=
  forallb (fun row => live s (row_obj row)) (rows s)
  && forallb (live s) (new s)
  && forallb (fun r => has_row r (rows s)) (deleted s).

(** An instance [save] can refresh after a flush: it is in memory, not
    marked for deletion, and has a row or is pending. *)
Definition savable (s : Session) (r : Ref) : Prop :=
  live s r = true
  /\ mem r (deleted s) = false
  /\ (has_row r (rows s) = true \/ mem r (new s) = true).

(** What [save] returns for its argument: the instance, the only element of
    a one-element list, or the list. *)
Definition save_result (new_obj : ObjOrList) : Ret :=
  match new_obj with
  | One r => RObj r
  | Many [x] => RObj x
  | Many l => RList l
  end.

(** The statement [get(session, obj, filters=filters, one_or_none=True)]
    runs, or the exception the clause builder raises. *)
Definition stmt_for (obj : Model) (filters : dict) : Result Stmt :=
  match filters with
  | [] => Return (select obj)
  | _ =>
      bindR (_build_clauses obj filters)
            (fun clauses =>
               Return (match clauses with
                       | [] => select obj
                       | _ => where_ (select obj) clauses
                       end))
  end.

(** A flushed session: nothing pending, nothing marked, and every row holds
    the attributes of its instance. *)
Definition synced (s : Session) : Prop :=
  new s = [] /\ deleted s = []
  /\ Forall (fun row => exists o, nth_error (heap s) (row_obj row) = Some o
                                  /\ row_vals row = obj_dict o) (rows s).

(** The key a row is stored under: its table and the identity of its
    values. *)
Definition row_key (s : Session) (row : Row) : string * Value :=
  (row_table row,
   match nth_error (heap s) (row_obj row) with
   | Some o => identity (obj_model o) (row_vals row)
   | None => VNone
   end).

Definition key_eqb (a b : string * Value) : bool :=
  String.eqb (fst a) (fst b) && value_eqb (snd a) (snd b).

Fixpoint distinct (keys : list (string * Value)) : bool :=
  match keys with
  | [] => true
  | k :: rest => negb (existsb (key_eqb k) rest) && distinct rest
  end.

(** No two rows of a table are stored under one key.  The engine keeps its
    tables so, by refusing an insert under a key that is taken; of the rows
    a flush of the model leaves, it says that the engine accepted them. *)
Definition unique_keys (s : Session) : bool :=
  distinct (map (row_key s) (rows s)).

(** A session with one more instance in memory. *)
Definition with_instance (s : Session) (o : Obj) : Session :=
  {| heap := heap s ++ [o]; rows := rows s; new := new s;
     deleted := deleted s |}.

(** ** A concrete entity and sessions, for the examples *)

Module Examples.

Definition Plant : Model :=
  {| model_name := "Plant";
     fields := ["id"; "name"; "species"];
     primary_key := ["id"];
     plain := [("model_dump", method "BaseModel.model_dump")] |}.

(** An entity whose key is not called [id]. *)
Definition Tag : Model :=
  {| model_name := "Tag";
     fields := ["code"; "label"];
     primary_key := ["code"];
     plain := [] |}.


Definition empty_session : Session :=
  {| heap := []; rows := []; new := []; deleted := [] |}.

Definition fern : dict :=
  [("name", VStr "Fern"); ("species", VStr "Fern sp.")].

Definition moss : dict :=
  [("name", VStr "Moss"); ("species", VStr "Bryophyta")].

(** The session after [get_or_create(session, Plant, fern, {"name": "Fern"})]
    on an empty table: one row, with the generated key 1. *)
Definition fern_session : Session :=
  snd (get_or_create Plant fern [("name", VStr "Fern")] empty_session).



(** A second plant is constructed, not saved. *)
Definition two_plants : Session :=
  snd (construct Plant moss fern_session).

(** Toy collaborators for the commit wrapper: the world is the log of the
    calls made; the session with number 13 fails to commit, and every
    rollback fails. *)
Definition log_commit (s : nat) (w : list string) : option Exc * list string :=
  (if Nat.eqb s 13 then Some (PyException "OperationalError" "commit failed")
   else None,
   (w ++ ["commit"])%list).

Definition log_rollback (s : nat) (w : list string)
  : option Exc * list string :=
  (Some (PyException "OperationalError" "rollback failed"),
   (w ++ ["rollback"])%list).

(** A decorated function that returns its number of arguments, and one that
    raises. *)
Definition count_args (args : list Arg) (kwargs : list (string * Arg))
  : M (list string) nat :=
  fun w => (Return (length args + length kwargs)%nat, (w ++ ["call"])%list).

Definition failing (args : list Arg) (kwargs : list (string * Arg))
  : M (list string) nat :=
  fun w => (Raise (NotFoundError "Plant not found"), (w ++ ["call"])%list).

End Examples.

(** ** The router, [utils/api.py]

    The three write endpoints of [make_crud_router] are [db_commit] around a
    call of [save], [update] or [delete].  The web framework binds the
    parameters of an endpoint ([id], [payload]) before the call; the wrapper
    sees the arguments only to find the session among them. *)

Module Api.



Section Router.

Variable session_commit : nat -> Session -> option Exc * Session.
Variable session_rollback : nat -> Session -> option Exc * Session.
Variable model : Model.


Definition update_item_body (id : Z) (payload : Payload) : M Session Ret :=
  update model (VInt id) payload.

Definition delete_item_body (id : Z) : M Session Ret :=
  delete model (VInt id).


Definition update_item (id : Z) (payload : Payload) (args : list Arg)
  (kwargs : list (string * Arg)) (session : Session)
  : Result Ret * Session * list SessionCall :=
  db_commit session_commit session_rollback
    (fun _ _ => update_item_body id payload) args kwargs session.

Definition delete_item (id : Z) (args : list Arg)
  (kwargs : list (string * Arg)) (session : Session)
  : Result Ret * Session * list SessionCall :=
  db_commit session_commit session_rollback
    (fun _ _ => delete_item_body id) args kwargs session.


End Router.

End Api.

(** ** The engine, [utils/db.py] *)

Module Db.

(** [os.environ]. *)
Definition Environ := list (string * string).

Fixpoint environ_get (environ : Environ) (k default : string) : string :=
  match environ with
  | [] => default
  | (k', v) :: rest =>
      if String.eqb k k' then v else environ_get rest k default
  end.

(** The module-level [DATABASE_URL]. *)
Definition DATABASE_URL (environ : Environ) : string :=
  environ_get environ "DATABASE_URL" "sqlite:///./database.db".

(** What [create_engine] is given; the engine is the library's, it is kept
    as the arguments it was made from. *)
Record Engine : Type := {
  engine_url : string;
  engine_echo : bool;
  engine_connect_args : dict
}.

Definition create_engine (url : string) (echo : bool) (connect_args : dict)
  : Engine :=
  {| engine_url := url; engine_echo := echo;
     engine_connect_args := connect_args |}.

(** [get_engine(echo)], over the module-level [_engine]. *)
Definition get_engine (environ : Environ) (echo : bool)
  (_engine : option Engine) : Engine * option Engine :=
  match _engine with
  | None =>
      let connect_args := [] in
      let connect_args :=
        if String.prefix "sqlite" (DATABASE_URL environ)
        then dict_set connect_args "check_same_thread" (VBool false)
        else connect_args in
      let e := create_engine (DATABASE_URL environ) echo connect_args in
      (e, Some e)
  | Some e => (e, Some e)
  end.

End Db.

(** ** Toy collaborators for the endpoints *)

Module Scenarios.

(** A commit that flushes and succeeds, except for session 13, and a
    rollback that does nothing. *)
Definition commit_flush (s : nat) (w : Session) : option Exc * Session :=
  if Nat.eqb s 13
  then (Some (PyException "OperationalError" "commit failed"), w)
  else (None, flush w).

Definition rollback_nop (s : nat) (w : Session) : option Exc * Session :=
  (None, w).


End Scenarios.

(** ** More notions the statements use *)

(** Lines 184 to 195 of [get]: the statement built from the filters and the
    order names, or the exception of the builder that refuses them. *)
Definition get_stmt (obj : Model) (filters : option dict)
  (order_by : option (list string)) : Result Stmt :=
  bindR (match filters with
         | Some filters => stmt_for obj filters
         | None => Return (select obj)
         end)
        (fun stmt =>
           match order_by with
           | Some ((_ :: _) as order_by) => _order_by order_by obj stmt
           | _ => Return stmt
           end).

(** What [one_or_none()] makes of the rows selected. *)
Definition one_or_none_of (l : list Ref) : Result Ret :=
  match l with
  | [] => Return RNone
  | [r] => Return (RObj r)
  | _ =>
      Raise (DatabaseError
               "Multiple rows were found when one or none was required" 500)
  end.

(** * Properties *)

(** ** The error-normalizing wrapper *)

Lemma db_error_raises_taxonomy {S A} (func : M S A) (s s' : S) (e : Exc) :
  db_error func s = (Raise e, s') -> isinstance_DatabaseError e = true.
Proof.
  unfold db_error. destruct (func s) as [[r | e0] s0].
  - discriminate.
  - destruct (isinstance_DatabaseError e0) eqn:He0; intros H;
      inversion H; subst; auto.
Qed.

Lemma run_call_is_wrapped (c : CrudCall) :
  exists body : M Session Ret, run_call c = db_error body.
Proof. destruct c; simpl; eexists; reflexivity. Qed.

(** C7.  When a wrapped operation raises [e], the wrapper lets [e] through
    unchanged if it is a [DatabaseError] (or an instance of a subclass), and
    otherwise raises a plain [DatabaseError] with status 500 and message
    [str(e)]; whatever a wrapper raises is in the taxonomy, and so is
    whatever [get], [get_by_id], [save], [delete] and [update] raise. *)
Theorem db_error_normalizes {S A} (func : M S A) (s s' : S) (e : Exc) :
  func s = (Raise e, s') ->
  (isinstance_DatabaseError e = true -> db_error func s = (Raise e, s'))
  /\ (isinstance_DatabaseError e = false ->
      db_error func s = (Raise (DatabaseError (str e) 500), s')
      /\ status_code_of (DatabaseError (str e) 500) = Some 500
      /\ str (DatabaseError (str e) 500) = str e)
  /\ (forall e1 s1, db_error func s = (Raise e1, s1) ->
        isinstance_DatabaseError e1 = true)
  /\ (forall (c : CrudCall) (session s1 : Session) (e1 : Exc),
        run_call c session = (Raise e1, s1) ->
        isinstance_DatabaseError e1 = true).
Proof.
  intros Hf. repeat split.
  - intros He. unfold db_error. rewrite Hf, He. reflexivity.
  - unfold db_error. rewrite Hf, H. reflexivity.
  - intros e1 s1. apply db_error_raises_taxonomy.
  - intros c session s1 e1 Hc.
    destruct (run_call_is_wrapped c) as [body Hb]. rewrite Hb in Hc.
    eapply db_error_raises_taxonomy; eauto.
Qed.

Lemma db_error_normalizes_witness :
  (raise (PyException "IndexError" "list index out of range") : M unit nat) tt
  = (Raise (PyException "IndexError" "list index out of range"), tt)
  /\ db_error (raise (PyException "IndexError" "list index out of range")
               : M unit nat) tt
     = (Raise (DatabaseError "list index out of range" 500), tt).
Proof.
  split; [reflexivity |].
  destruct (db_error_normalizes
              (raise (PyException "IndexError" "list index out of range")
               : M unit nat) tt tt
              (PyException "IndexError" "list index out of range") eq_refl)
    as (_ & H & _).
  destruct (H eq_refl) as [E _]. exact E.
Defined.

(** ** The filter-clause builder *)




(** A mapped column is an attribute of the class, and not a plain one. *)
Lemma is_field_hasattr (model : Model) (field : string) :
  is_field model field = true -> hasattr model field = true.
Proof. unfold hasattr. intros ->. reflexivity. Qed.

Lemma is_field_plain_attr (model : Model) (field : string) :
  is_field model field = true -> plain_attr model field = None.
Proof. unfold plain_attr. intros ->. reflexivity. Qed.

Lemma plain_attr_hasattr (model : Model) (field : string) (p : Plain) :
  plain_attr model field = Some p -> hasattr model field = true.
Proof.
  unfold plain_attr, hasattr. destruct (is_field model field); [discriminate |].
  intros ->. reflexivity.
Qed.

Lemma hasattr_cases (model : Model) (field : string) :
  hasattr model field = true ->
  is_field model field = true \/ exists p, plain_attr model field = Some p.
Proof.
  unfold hasattr, plain_attr. destruct (is_field model field); [auto |].
  simpl. destruct (find_plain (plain model) field) as [p |]; [| discriminate].
  intros _. right. exists p. reflexivity.
Qed.




(** C4.  [model_dump] is an attribute of the entity [Plant] and no mapped
    column of it, so the builder does not refuse it.  For the key
    [model_dump] it returns one entry that is no clause but the Python bool
    [False]; for [model_dump__lt] it fails with the [TypeError] of the
    comparison and for [model_dump__like] with an [AttributeError], neither
    of them a [ValidationError]; [get] reports the [TypeError] as a
    [DatabaseError] with status 500. *)
Theorem build_clauses_plain_attribute :
  hasattr Examples.Plant "model_dump" = true
  /\ is_field Examples.Plant "model_dump" = false
  /\ _build_clauses Examples.Plant [("model_dump", VStr "x")]
     = Return [CPlain (getattr Examples.Plant "model_dump") "eq" (VStr "x")
                 false]
  /\ _build_clauses Examples.Plant [("model_dump__lt", VStr "x")]
     = Raise (PyException "TypeError"
                "'<' not supported between instances of 'function' and 'str'")
  /\ _build_clauses Examples.Plant [("model_dump__like", VStr "x")]
     = Raise (PyException "AttributeError"
                "'function' object has no attribute 'like'")
  /\ get Examples.Plant (Some [("model_dump__lt", VStr "x")]) None false
       Examples.empty_session
     = (Raise (DatabaseError
                 "'<' not supported between instances of 'function' and 'str'"
                 500),
        Examples.empty_session).
Proof. repeat split. Qed.



(** ** The ordering builder *)

Lemma order_col_ok (obj : Model) (o : string) :
  is_field obj (order_field o) = true ->
  order_col obj o = Return (order_term obj o).
Proof.
  intros H. pose proof (is_field_hasattr obj _ H) as Ha.
  pose proof (is_field_plain_attr obj _ H) as Hp.
  unfold order_col, order_term, order_field, descending, desc, asc in *.
  destruct o as [| c rest]; [rewrite Ha, Hp; reflexivity |].
  destruct c as [[] [] [] [] [] [] [] []]; rewrite Ha, Hp; reflexivity.
Qed.

Lemma order_col_missing (obj : Model) (o : string) :
  hasattr obj (order_field o) = false ->
  order_col obj o
  = Raise (ValidationError ("Order field '" ++ order_field o ++ "' not found")).
Proof.
  unfold order_col, order_field.
  destruct o as [| c rest]; [intros ->; reflexivity |].
  destruct c as [[] [] [] [] [] [] [] []]; intros ->; reflexivity.
Qed.

Lemma order_cols_loop_app (obj : Model) (pre rest : list string) :
  forallb (fun o => is_field obj (order_field o)) pre = true ->
  forall acc,
    order_cols_loop obj (pre ++ rest)%list acc
    = order_cols_loop obj rest (acc ++ map (order_term obj) pre)%list.
Proof.
  induction pre as [| o pre IH]; simpl; intros H acc.
  - rewrite app_nil_r. reflexivity.
  - apply andb_prop in H. destruct H as [Ho Hpre].
    rewrite (order_col_ok obj o Ho). simpl.
    rewrite (IH Hpre), <- app_assoc. reflexivity.
Qed.

(** [order_by] takes the terms of mapped columns. *)
Lemma refused_order_terms (obj : Model) (order_by : list string) :
  refused (map (order_term obj) order_by) = None.
Proof.
  induction order_by as [| o rest IH]; [reflexivity |].
  simpl. unfold order_term at 1. destruct (descending o); exact IH.
Qed.

(** C8.  [model_dump] is an attribute of the entity [Plant] and no field of
    it, so the loop of the builder does not refuse the name.  Ordering by
    [model_dump] fails with a [TypeError] raised by [query.order_by], and
    ordering by [-model_dump] with the [AttributeError] of [desc]; neither
    is the [ValidationError] for an order field that was not found, and
    [get] reports them as [DatabaseError] with status 500. *)
Theorem order_by_plain_attribute :
  hasattr Examples.Plant "model_dump" = true
  /\ is_field Examples.Plant "model_dump" = false
  /\ (exists text,
        _order_by ["model_dump"] Examples.Plant (select Examples.Plant)
        = Raise (PyException "TypeError" text))
  /\ _order_by ["-model_dump"] Examples.Plant (select Examples.Plant)
     = Raise (PyException "AttributeError"
                "'function' object has no attribute 'desc'")
  /\ (exists text,
        get Examples.Plant None (Some ["model_dump"]) false
          Examples.empty_session
        = (Raise (DatabaseError text 500), Examples.empty_session))
  /\ get Examples.Plant None (Some ["-model_dump"]) false
       Examples.empty_session
     = (Raise (DatabaseError "'function' object has no attribute 'desc'" 500),
        Examples.empty_session).
Proof.
  repeat split; eexists; reflexivity.
Qed.

(** X25.  On mapped columns the builder does what its documentation says.
    When every name, without its leading [-] if it has one, is a mapped
    column of the entity, the builder returns the query with one term per
    name added after the terms it had, in the sequence given, descending for
    a name with a leading [-] and ascending otherwise, and with its class
    and conditions unchanged.  After names of mapped columns, the first name
    that is no attribute of the entity makes it fail with a
    [ValidationError] saying the order field was not found. *)
Theorem order_by_on_columns (order_by : list string) (obj : Model)
  (query : Stmt) :
  (forallb (fun o => is_field obj (order_field o)) order_by = true ->
   exists ordered,
     _order_by order_by obj query = Return ordered
     /\ stmt_order ordered
        = (stmt_order query ++ map (order_term obj) order_by)%list
     /\ stmt_where ordered = stmt_where query
     /\ stmt_model ordered = stmt_model query
     /\ length (map (order_term obj) order_by) = length order_by
     /\ forall i o, nth_error order_by i = Some o ->
                    nth_error (map (order_term obj) order_by) i
                    = Some (if descending o
                            then Desc (getattr obj (order_field o))
                            else Asc (getattr obj (order_field o))))
  /\ (forall pre o post,
        order_by = (pre ++ o :: post)%list ->
        forallb (fun o => is_field obj (order_field o)) pre = true ->
        hasattr obj (order_field o) = false ->
        _order_by order_by obj query
        = Raise (ValidationError
                   ("Order field '" ++ order_field o ++ "' not found"))).
Proof.
  split.
  - intros H. unfold _order_by.
    pose proof (order_cols_loop_app obj order_by [] H []) as E.
    rewrite app_nil_r in E. rewrite E. simpl.
    unfold query_order_by. rewrite refused_order_terms.
    eexists. split; [reflexivity |]. repeat split.
    + apply length_map.
    + intros i o Hi. rewrite nth_error_map, Hi. reflexivity.
  - intros pre o post -> Hpre Ho. unfold _order_by.
    rewrite (order_cols_loop_app obj pre (o :: post) Hpre []).
    simpl. rewrite (order_col_missing obj o Ho). reflexivity.
Qed.

Lemma order_by_on_columns_witness :
  (exists ordered,
     _order_by ["-name"; "id"] Examples.Plant (select Examples.Plant)
     = Return ordered
     /\ stmt_order ordered
        = [Desc (getattr Examples.Plant "name");
           Asc (getattr Examples.Plant "id")])
  /\ _order_by ["-name"; "--id"; "height"] Examples.Plant
       (select Examples.Plant)
     = Raise (ValidationError "Order field '-id' not found").
Proof.
  split.
  - destruct (order_by_on_columns ["-name"; "id"] Examples.Plant
                (select Examples.Plant)) as [H _].
    destruct (H eq_refl) as (ordered & E & Ho & _).
    exists ordered. split; [exact E | exact Ho].
  - destruct (order_by_on_columns ["-name"; "--id"; "height"] Examples.Plant
                (select Examples.Plant)) as [_ H].
    exact (H ["-name"] "--id" ["height"] eq_refl eq_refl eq_refl).
Defined.

(** ** [get_or_create] on blank filter values *)

Lemma blank_filter_true (filters : dict) (k : string) (v : Value) :
  In (k, v) filters -> v = VNone \/ v = VStr "" ->
  blank_filter filters = true.
Proof.
  induction filters as [| [k' v'] rest IH]; simpl; [tauto |].
  intros [H | H] Hv.
  - inversion H; subst. destruct Hv as [-> | ->]; reflexivity.
  - match goal with
    | |- (if ?c then _ else _) = _ =>
        destruct c; [reflexivity | exact (IH H Hv)]
    end.
Qed.

(** C5.  When some filter value is [None] or the empty string,
    [get_or_create] returns [None] and leaves the session as it was: no
    instance is built, added or flushed; a second call on the resulting
    session does the same. *)
Theorem get_or_create_blank (obj : Model) (vals filters : dict)
  (session : Session) (k : string) (v : Value) :
  In (k, v) filters -> v = VNone \/ v = VStr "" ->
  get_or_create obj vals filters session = (Return RNone, session)
  /\ get_or_create obj vals filters
       (snd (get_or_create obj vals filters session))
     = (Return RNone, session).
Proof.
  intros Hin Hv.
  assert (E : get_or_create obj vals filters session = (Return RNone, session)).
  { unfold get_or_create. rewrite (blank_filter_true filters k v Hin Hv).
    reflexivity. }
  rewrite E. simpl. auto.
Qed.

Lemma get_or_create_blank_witness :
  get_or_create Examples.Plant Examples.fern
    [("name", VStr "Fern"); ("species", VStr "")] Examples.fern_session
  = (Return RNone, Examples.fern_session).
Proof.
  apply (get_or_create_blank Examples.Plant Examples.fern
           [("name", VStr "Fern"); ("species", VStr "")]
           Examples.fern_session "species" (VStr "")).
  - simpl. right. left. reflexivity.
  - right. reflexivity.
Defined.

(** ** The package interface *)

(** C10.  The fourth import statement of the package asks [db_utils] for
    [save_all], which the module does not define, so running the body of
    the package raises [ImportError], and so does the import of any name
    out of the package. *)
Theorem package_import_fails :
  In "save_all" Package.all_names
  /\ ~ In "save_all" Package.db_utils_names
  /\ Package.import_package
     = Raise (Package.ImportError "save_all" ".db_utils")
  /\ forall name,
       Package.from_package_import name
       = Raise (Package.ImportError "save_all" ".db_utils").
Proof.
  split; [| split; [| split]].
  - simpl. tauto.
  - simpl. intros H.
    repeat (destruct H as [H | H]; [discriminate |]). exact H.
  - reflexivity.
  - intros name. reflexivity.
Qed.

(** ** The commit wrapper *)

Lemma extract_session_order (args : list Arg) (kwargs : list (string * Arg)) :
  _extract_session args kwargs
  = match kw_session kwargs "session" with
    | Some s => Some s
    | None =>
        match kw_session kwargs "db" with
        | Some s => Some s
        | None => first_session args
        end
    end.
Proof.
  unfold _extract_session, kw_session.
  assert (L : forall l,
             (fix loop (args0 : list Arg) : option nat :=
                match args0 with
                | [] => None
                | ASession s :: _ => Some s
                | AOther _ :: rest => loop rest
                end) l = first_session l).
  { induction l as [| [s | v] l IH]; simpl; auto. }
  destruct (kwargs_get kwargs "session") as [[s | v] |];
    destruct (kwargs_get kwargs "db") as [[s' | v'] |]; auto.
Qed.

Section DbCommitFacts.

Context {W T : Type}.
Variable session_commit : nat -> W -> option Exc * W.
Variable session_rollback : nat -> W -> option Exc * W.
Variable func : list Arg -> list (string * Arg) -> M W T.

(** Without a session among the arguments the wrapper only calls the
    function. *)
Lemma db_commit_no_session args kwargs w :
  _extract_session args kwargs = None ->
  db_commit session_commit session_rollback func args kwargs w = (func args kwargs w, []).
Proof.
  intros H. unfold db_commit, on_exception. rewrite H.
  destruct (func args kwargs w) as [[r | e] w1]; reflexivity.
Qed.

(** C2, as the code has it.  The session is the [session] keyword
    argument if that is a [Session], else the [db] keyword argument if
    that is one, else the first [Session] among the positional arguments.
    With a session [s] found: when the function returns, the wrapper
    calls [commit] on [s] exactly once, and returns the result if the
    commit succeeds; if the commit raises, it attempts one rollback and
    raises the exception of the commit.  When the function raises [e],
    the wrapper calls [rollback] on [s] exactly once and nothing else,
    and raises [e] whether or not the rollback failed.  With no session
    found it calls neither and hands on what the function did. *)
Theorem db_commit_spec args kwargs w :
  _extract_session args kwargs
  = match kw_session kwargs "session" with
    | Some s => Some s
    | None =>
        match kw_session kwargs "db" with
        | Some s => Some s
        | None => first_session args
        end
    end
  /\ (forall s,
        _extract_session args kwargs = Some s ->
        (forall result w1,
            func args kwargs w = (Return result, w1) ->
            commits (snd (db_commit session_commit session_rollback func
                            args kwargs w)) = 1%nat
            /\ (forall w2, session_commit s w1 = (None, w2) ->
                  db_commit session_commit session_rollback func
                    args kwargs w
                  = (Return result, w2, [Commit s]))
            /\ (forall e w2, session_commit s w1 = (Some e, w2) ->
                  db_commit session_commit session_rollback func
                    args kwargs w
                  = (Raise e, snd (session_rollback s w2),
                     [Commit s; Rollback s])))
        /\ (forall e w1,
              func args kwargs w = (Raise e, w1) ->
              db_commit session_commit session_rollback func args kwargs w
              = (Raise e, snd (session_rollback s w1), [Rollback s])))
  /\ (_extract_session args kwargs = None ->
      db_commit session_commit session_rollback func args kwargs w
      = (func args kwargs w, [])).
Proof.
  split; [apply extract_session_order |].
  split; [| apply db_commit_no_session].
  intros s Hs. split.
  - intros result w1 Hf. unfold db_commit, on_exception.
    rewrite Hf, Hs.
    destruct (session_commit s w1) as [[e |] w2] eqn:Hc.
    + destruct (session_rollback s w2) as [o w3] eqn:Hr. simpl.
      split; [reflexivity |]. split.
      * intros w2' H. discriminate.
      * intros e' w2' H. inversion H; subst. rewrite Hr. reflexivity.
    + simpl. split; [reflexivity |]. split.
      * intros w2' H. inversion H; subst. reflexivity.
      * intros e' w2' H. discriminate.
  - intros e w1 Hf. unfold db_commit, on_exception. rewrite Hf, Hs.
    destruct (session_rollback s w1) as [o w2]. reflexivity.
Qed.

End DbCommitFacts.

Lemma db_commit_spec_witness :
  _extract_session [AOther (VInt 1); ASession 7] [("id", AOther (VInt 1))]
  = Some 7%nat
  /\ db_commit Examples.log_commit Examples.log_rollback Examples.failing
       [AOther (VInt 1); ASession 7] [("id", AOther (VInt 1))] []
     = (Raise (NotFoundError "Plant not found"), ["call"; "rollback"],
        [Rollback 7])
  /\ db_commit Examples.log_commit Examples.log_rollback Examples.count_args
       [AOther (VInt 1)] [("db", ASession 13)] []
     = (Raise (PyException "OperationalError" "commit failed"),
        ["call"; "commit"; "rollback"], [Commit 13; Rollback 13]).
Proof.
  split; [reflexivity |].
  destruct (db_commit_spec Examples.log_commit Examples.log_rollback
              Examples.failing [AOther (VInt 1); ASession 7]
              [("id", AOther (VInt 1))] []) as (_ & H & _).
  destruct (H 7%nat eq_refl) as [_ Hr].
  destruct (db_commit_spec Examples.log_commit Examples.log_rollback
              Examples.count_args [AOther (VInt 1)]
              [("db", ASession 13)] []) as (_ & H' & _).
  destruct (H' 13%nat eq_refl) as [Hc _].
  destruct (Hc 2%nat ["call"] eq_refl) as (_ & _ & Hc').
  split.
  - exact (Hr (NotFoundError "Plant not found") ["call"] eq_refl).
  - exact (Hc' (PyException "OperationalError" "commit failed")
             ["call"; "commit"] eq_refl).
Defined.

(** C2 as stated does not hold: called without a session among its
    arguments, the wrapper makes no commit when the function returns. *)
Lemma db_commit_no_session_no_commit :
  fst (fst (db_commit Examples.log_commit Examples.log_rollback
              Examples.count_args [AOther (VInt 1)] [] []))
  = Return 1%nat
  /\ commits (snd (db_commit Examples.log_commit Examples.log_rollback
                     Examples.count_args [AOther (VInt 1)] [] []))
     <> 1%nat.
Proof. split; [reflexivity | discriminate]. Qed.

(** ** Facts about the session *)

Lemma find_row_in (rs : list Row) (row : Row) :
  In row rs -> has_row (row_obj row) rs = true.
Proof.
  unfold has_row, find_row. intros Hin.
  destruct (find (fun row0 => Nat.eqb (row_obj row0) (row_obj row)) rs)
    eqn:E; [reflexivity |].
  pose proof (find_none _ _ E row Hin) as H. simpl in H.
  rewrite Nat.eqb_refl in H. discriminate.
Qed.

Lemma find_identity_has_row (obj : Model) (id : Value) (rs : list Row)
  (r : Ref) :
  find_identity obj id rs = Some r -> has_row r rs = true.
Proof.
  unfold find_identity. intros H.
  destruct (find _ rs) as [row |] eqn:E; [| discriminate].
  simpl in H. inversion H; subst.
  apply find_row_in. eapply find_some; eauto.
Qed.

(** [session.get] does not raise, and what it returns has a row. *)
Lemma session_get_cases (obj : Model) (id : Value) (s : Session) :
  exists o s1, session_get obj id s = (Return o, s1)
               /\ (forall r, o = Some r -> has_row r (rows s1) = true).
Proof.
  unfold session_get.
  destruct (find_identity obj id (rows s)) as [r |] eqn:E.
  - exists (Some r), s. split; [reflexivity |].
    intros r' H. inversion H; subst.
    eapply find_identity_has_row; eauto.
  - exists (find_identity obj id (rows (flush s))), (flush s).
    split; [reflexivity |]. intros r H.
    eapply find_identity_has_row; eauto.
Qed.

Lemma mem_in (r : Ref) (l : list Ref) : mem r l = true <-> In r l.
Proof.
  unfold mem. rewrite existsb_exists. split.
  - intros [x [Hx E]]. apply Nat.eqb_eq in E. subst. exact Hx.
  - intros H. exists r. split; [exact H | apply Nat.eqb_refl].
Qed.

(** ** [delete] and [update] by id *)

(** C6.  When the session has no instance for [id], [delete] and [update]
    both raise [NotFoundError], whose status is 404.  When it has the
    instance [r], [delete] marks [r] for deletion and returns [True]. *)
Theorem delete_update_by_id (obj : Model) (id : Value) (vals : Payload)
  (session : Session) :
  (forall s1,
      session_get obj id session = (Return None, s1) ->
      delete obj id session
      = (Raise (NotFoundError (model_name obj ++ " not found")), s1)
      /\ update obj id vals session
         = (Raise (NotFoundError (model_name obj ++ " not found")), s1)
      /\ status_code_of (NotFoundError (model_name obj ++ " not found"))
         = Some 404)
  /\ (forall r s1,
        session_get obj id session = (Return (Some r), s1) ->
        exists s2,
          delete obj id session = (Return (RBool true), s2)
          /\ In r (deleted s2)
          /\ heap s2 = heap s1 /\ rows s2 = rows s1 /\ new s2 = new s1).
Proof.
  split.
  - intros s1 H. unfold delete, update, db_error, bind. rewrite H.
    simpl. auto.
  - intros r s1 H.
    destruct (session_get_cases obj id session) as (o & s1' & E & Hrow).
    rewrite H in E. inversion E; subst o s1'. clear E.
    specialize (Hrow r eq_refl).
    unfold delete, db_error, bind. rewrite H.
    unfold session_delete. rewrite Hrow. simpl.
    eexists. split; [reflexivity |]. simpl. split; [| auto].
    destruct (mem r (deleted s1)) eqn:Em.
    + apply mem_in. exact Em.
    + apply in_or_app. right. left. reflexivity.
Qed.

Lemma delete_update_by_id_witness :
  session_get Examples.Plant (VInt 1) Examples.fern_session
  = (Return (Some 0%nat), Examples.fern_session)
  /\ session_get Examples.Plant (VInt 2) Examples.fern_session
     = (Return None, Examples.fern_session)
  /\ fst (delete Examples.Plant (VInt 1) Examples.fern_session)
     = Return (RBool true)
  /\ fst (update Examples.Plant (VInt 2) [] Examples.fern_session)
     = Raise (NotFoundError "Plant not found").
Proof.
  destruct (delete_update_by_id Examples.Plant (VInt 1) []
              Examples.fern_session) as [_ Hp].
  destruct (delete_update_by_id Examples.Plant (VInt 2) []
              Examples.fern_session) as [Ha _].
  split; [reflexivity |]. split; [reflexivity |]. split.
  - destruct (Hp 0%nat Examples.fern_session eq_refl) as (s2 & E & _).
    rewrite E. reflexivity.
  - destruct (Ha Examples.fern_session eq_refl) as (_ & E & _).
    rewrite E. reflexivity.
Defined.

(** ** [update] *)

Lemma dict_get_in (d : dict) (k : string) (v : Value) :
  dict_get d k = Some v -> In (k, v) d.
Proof.
  induction d as [| [k' v'] d IH]; simpl; [discriminate |].
  destruct (String.eqb_spec k k') as [-> | Hne].
  - intros H. inversion H. left. reflexivity.
  - intros H. right. exact (IH H).
Qed.

Lemma dict_get_set_same (d : dict) (k : string) (v : Value) :
  dict_get (dict_set d k v) k = Some v.
Proof.
  induction d as [| [k' v'] d IH]; simpl.
  - rewrite String.eqb_refl. reflexivity.
  - destruct (String.eqb k k') eqn:E; simpl; rewrite E; auto.
Qed.

Lemma dict_get_set_other (d : dict) (k k' : string) (v : Value) :
  k <> k' -> dict_get (dict_set d k' v) k = dict_get d k.
Proof.
  intros Hne. induction d as [| [k0 v0] d IH]; simpl.
  - destruct (String.eqb_spec k k'); [contradiction | reflexivity].
  - destruct (String.eqb_spec k' k0) as [-> | H0]; simpl.
    + destruct (String.eqb_spec k k0); [contradiction | reflexivity].
    + destruct (String.eqb k k0); [reflexivity | exact IH].
Qed.

Lemma dict_get_update_other (other d : dict) (k : string) :
  dict_get other k = None -> dict_get (dict_update d other) k = dict_get d k.
Proof.
  unfold dict_update. revert d.
  induction other as [| [k' v'] other IH]; simpl; intros d H; [reflexivity |].
  destruct (String.eqb_spec k k') as [-> | Hne]; [discriminate |].
  rewrite (IH _ H). apply dict_get_set_other. exact Hne.
Qed.

Lemma dict_get_update_set (other d : dict) (k : string) (v : Value) :
  NoDup (map fst other) -> dict_get other k = Some v ->
  dict_get (dict_update d other) k = Some v.
Proof.
  unfold dict_update. revert d.
  induction other as [| [k' v'] other IH]; simpl; intros d Hnd H;
    [discriminate |].
  inversion Hnd as [| ? ? Hnotin Hnd']; subst.
  destruct (String.eqb_spec k k') as [-> | Hne].
  - inversion H; subst.
    assert (Hnone : dict_get other k' = None).
    { destruct (dict_get other k') as [v0 |] eqn:E; [| reflexivity].
      exfalso. apply Hnotin. apply (in_map fst _ _ (dict_get_in _ _ _ E)). }
    pose proof (dict_get_update_other other (dict_set d k' v) k' Hnone) as Hu.
    unfold dict_update in Hu. rewrite Hu. apply dict_get_set_same.
  - apply IH; assumption.
Qed.

Lemma dict_get_del_same (d : dict) (k : string) :
  dict_get (dict_del d k) k = None.
Proof.
  unfold dict_del. induction d as [| [k' v'] d IH]; simpl; [reflexivity |].
  destruct (String.eqb k k') eqn:E; simpl; [exact IH |].
  rewrite E. exact IH.
Qed.

Lemma dict_get_del_other (d : dict) (k k' : string) :
  k <> k' -> dict_get (dict_del d k') k = dict_get d k.
Proof.
  intros Hne. unfold dict_del.
  induction d as [| [k0 v0] d IH]; simpl; [reflexivity |].
  destruct (String.eqb_spec k' k0) as [-> | H0]; simpl.
  - destruct (String.eqb_spec k k0); [contradiction | exact IH].
  - destruct (String.eqb k k0); [reflexivity | exact IH].
Qed.

(** The dictionary [update] sets the attributes from: it has no [id]; a
    field the payload sets has the value of the payload; any other field
    has the value of the instance. *)
Lemma merged_dict_frame (db_result_dict : dict) (vals : Payload) :
  dict_get (merged_dict db_result_dict vals) "id" = None
  /\ (forall k v,
        k <> "id" -> NoDup (map fst (model_dump_exclude_unset vals)) ->
        dict_get (model_dump_exclude_unset vals) k = Some v ->
        dict_get (merged_dict db_result_dict vals) k = Some v)
  /\ (forall k,
        k <> "id" ->
        dict_get (model_dump_exclude_unset vals) k = None ->
        dict_get (merged_dict db_result_dict vals) k
        = dict_get db_result_dict k).
Proof.
  unfold merged_dict, dict_contains.
  destruct (dict_get (dict_update db_result_dict
                        (model_dump_exclude_unset vals)) "id") as [v0 |] eqn:E.
  - split; [apply dict_get_del_same |]. split.
    + intros k v Hk Hnd Hv. rewrite (dict_get_del_other _ _ _ Hk).
      apply dict_get_update_set; assumption.
    + intros k Hk Hv. rewrite (dict_get_del_other _ _ _ Hk).
      apply dict_get_update_other. exact Hv.
  - split; [exact E |]. split.
    + intros k v Hk Hnd Hv. apply dict_get_update_set; assumption.
    + intros k Hk Hv. apply dict_get_update_other. exact Hv.
Qed.

(** C3.  On the session that holds the plant "Fern" under key 1, an update
    whose payload sets only [name], to "Moss", returns the instance with
    the attributes it had, and leaves the session as it was: the refresh
    that follows the merge, with no flush in between as [save] has one,
    loads the row again over the attributes just set. *)
Theorem update_merge_is_dropped :
  update Examples.Plant (VInt 1)
    [ {| pf_name := "name"; pf_value := VStr "Moss"; pf_set := true |};
      {| pf_name := "species"; pf_value := VNone; pf_set := false |} ]
    Examples.fern_session
  = (Return (RObj 0%nat), Examples.fern_session)
  /\ dict_get (model_dump 0%nat Examples.fern_session) "name"
     = Some (VStr "Fern").
Proof. split; reflexivity. Qed.

(** ** Flushing keeps what [save] needs *)

Lemma has_row_app (r : Ref) (a b : list Row) :
  has_row r (a ++ b) = has_row r a || has_row r b.
Proof.
  unfold has_row, find_row. induction a as [| x a IH]; simpl; [reflexivity |].
  destruct (Nat.eqb (row_obj x) r); [reflexivity | exact IH].
Qed.

Lemma length_list_set {A} (l : list A) (i : nat) (x : A) :
  length (list_set l i x) = length l.
Proof.
  revert i. induction l as [| h t IH]; intros [| i]; simpl; auto.
Qed.

Lemma insert_one_shape (s : Session) (r : Ref) :
  length (heap (insert_one s r)) = length (heap s)
  /\ new (insert_one s r) = new s
  /\ deleted (insert_one s r) = deleted s
  /\ exists extra,
      rows (insert_one s r) = (rows s ++ extra)%list
      /\ Forall (fun row => row_obj row = r /\ live s r = true) extra
      /\ (live s r = true -> has_row r extra = true).
Proof.
  unfold insert_one, live.
  destruct (nth_error (heap s) r) as [o |] eqn:E; simpl.
  - rewrite length_list_set. repeat split.
    eexists. split; [reflexivity |].
    assert (Hl : (r <? length (heap s))%nat = true).
    { apply Nat.ltb_lt. apply nth_error_Some. congruence. }
    split.
    + constructor; [| constructor]. simpl. auto.
    + intros _. unfold has_row, find_row. simpl. rewrite Nat.eqb_refl.
      reflexivity.
  - repeat split. exists []. rewrite app_nil_r. split; [reflexivity |].
    split; [constructor |]. intros H. apply Nat.ltb_lt in H.
    apply nth_error_Some in H. congruence.
Qed.

Lemma fold_insert_shape (l : list Ref) (s : Session) :
  length (heap (fold_left insert_one l s)) = length (heap s)
  /\ new (fold_left insert_one l s) = new s
  /\ deleted (fold_left insert_one l s) = deleted s
  /\ exists extra,
      rows (fold_left insert_one l s) = (rows s ++ extra)%list
      /\ Forall (fun row => live s (row_obj row) = true) extra
      /\ (forall r, In r l -> live s r = true -> has_row r extra = true).
Proof.
  revert s. induction l as [| x l IH]; intros s; simpl.
  - repeat split. exists []. rewrite app_nil_r. split; [reflexivity |].
    split; [constructor |]. intros r [].
  - destruct (insert_one_shape s x) as (Hlen & Hnew & Hdel & e1 & Hr1 & Hf1 & Hh1).
    destruct (IH (insert_one s x)) as (Hlen' & Hnew' & Hdel' & e2 & Hr2 & Hf2 & Hh2).
    rewrite Hlen', Hnew', Hdel'. repeat split; auto.
    exists (e1 ++ e2)%list. split; [| split].
    + rewrite Hr2, Hr1, app_assoc. reflexivity.
    + apply Forall_app. split.
      * eapply Forall_impl; [| exact Hf1]. simpl. intros row [-> H]. exact H.
      * eapply Forall_impl; [| exact Hf2]. simpl. unfold live.
        rewrite Hlen. auto.
    + intros r [-> | Hin] Hlive; rewrite has_row_app.
      * rewrite (Hh1 Hlive). reflexivity.
      * assert (Hl' : live (insert_one s x) r = true).
        { unfold live in *. rewrite Hlen. exact Hlive. }
        rewrite (Hh2 r Hin Hl'). apply orb_true_r.
Qed.

Lemma has_row_map_sync (h : list Obj) (r : Ref) (rs : list Row) :
  has_row r (map (sync_row h) rs) = has_row r rs.
Proof.
  unfold has_row, find_row. induction rs as [| x rs IH]; simpl; [reflexivity |].
  assert (E : row_obj (sync_row h x) = row_obj x).
  { unfold sync_row. destruct (nth_error h (row_obj x)); reflexivity. }
  rewrite E. destruct (Nat.eqb (row_obj x) r); [reflexivity | exact IH].
Qed.

Lemma has_row_filter (del : list Ref) (r : Ref) (rs : list Row) :
  mem r del = false ->
  has_row r (filter (fun row => negb (mem (row_obj row) del)) rs)
  = has_row r rs.
Proof.
  intros Hm. unfold has_row, find_row.
  induction rs as [| x rs IH]; simpl; [reflexivity |].
  destruct (Nat.eqb (row_obj x) r) eqn:E.
  - apply Nat.eqb_eq in E. rewrite E, Hm. simpl.
    rewrite E, Nat.eqb_refl. reflexivity.
  - destruct (negb (mem (row_obj x) del)); simpl; [rewrite E |]; exact IH.
Qed.

Lemma flush_shape (s : Session) :
  length (heap (flush s)) = length (heap s)
  /\ new (flush s) = [] /\ deleted (flush s) = [].
Proof.
  unfold flush. simpl.
  destruct (fold_insert_shape (new s) s) as (Hlen & _). auto.
Qed.

Lemma flush_savable (s : Session) (r : Ref) :
  savable s r -> savable (flush s) r /\ has_row r (rows (flush s)) = true.
Proof.
  intros (Hlive & Hdel & Hrow).
  destruct (flush_shape s) as (Hlen & Hnew & Hdel').
  assert (H : has_row r (rows (flush s)) = true).
  { unfold flush. simpl. rewrite (has_row_filter _ _ _ Hdel).
    rewrite has_row_map_sync.
    destruct (fold_insert_shape (new s) s) as (_ & _ & _ & e & -> & _ & Hh).
    rewrite has_row_app. destruct Hrow as [Hr | Hn].
    - rewrite Hr. reflexivity.
    - rewrite (Hh r (proj1 (mem_in r (new s)) Hn) Hlive). apply orb_true_r. }
  split; [| exact H]. unfold savable, live in *.
  rewrite Hlen, Hdel'. auto.
Qed.

Lemma set_dict_shape (r : Ref) (d : dict) (s : Session) :
  length (heap (set_dict r d s)) = length (heap s)
  /\ rows (set_dict r d s) = rows s
  /\ new (set_dict r d s) = new s
  /\ deleted (set_dict r d s) = deleted s.
Proof.
  unfold set_dict. destruct (nth_error (heap s) r); simpl; auto.
  rewrite length_list_set. auto.
Qed.

Lemma set_dict_savable (r x : Ref) (d : dict) (s : Session) :
  savable s x -> savable (set_dict r d s) x.
Proof.
  destruct (set_dict_shape r d s) as (Hlen & Hrows & Hnew & Hdel).
  unfold savable, live. rewrite Hlen, Hrows, Hnew, Hdel. auto.
Qed.

(** Refreshing a savable instance right after a flush succeeds. *)
Lemma flush_refresh_ok (l : list Ref) (s : Session) (r : Ref) :
  In r l -> (forall x, In x l -> savable s x) ->
  exists s', (session_flush ;;; session_refresh r) s = (Return tt, s')
             /\ forall x, In x l -> savable s' x.
Proof.
  intros Hin Hall. unfold bind, session_flush, session_refresh.
  destruct (flush_savable s r (Hall r Hin)) as [_ Hrow].
  unfold has_row in Hrow.
  destruct (find_row r (rows (flush s))) as [row |] eqn:E; [| discriminate].
  set (s1 := set_dict r (row_vals row) (flush s)).
  assert (H1 : forall x, In x l -> savable s1 x).
  { intros x Hx. apply set_dict_savable.
    apply (flush_savable s x (Hall x Hx)). }
  destruct (flush_savable s1 r (H1 r Hin)) as [_ Hrow1].
  unfold has_row in Hrow1.
  destruct (find_row r (rows (flush s1))) as [row1 |] eqn:E1; [| discriminate].
  eexists. split; [reflexivity |].
  intros x Hx. apply set_dict_savable. apply (flush_savable s1 x (H1 x Hx)).
Qed.

Lemma save_loop_ok (l : list Ref) (s : Session) :
  (forall x, In x l -> savable s x) ->
  forall l', incl l' l ->
    forall s0, (forall x, In x l -> savable s0 x) ->
      exists s',
        for_each l' (fun obj => session_flush ;;; session_refresh obj) s0
        = (Return tt, s').
Proof.
  intros _ l'. induction l' as [| r l' IH]; intros Hincl s0 H0; simpl.
  - eexists. reflexivity.
  - destruct (flush_refresh_ok l s0 r (Hincl r (or_introl eq_refl)) H0)
      as (s1 & E & H1).
    unfold bind at 1. rewrite E.
    apply IH; [| exact H1].
    intros x Hx. apply Hincl. right. exact Hx.
Qed.

Lemma add_one_shape (s : Session) (r : Ref) :
  heap (add_one s r) = heap s /\ rows (add_one s r) = rows s.
Proof.
  unfold add_one. destruct (has_row r (rows s)); [simpl; auto |].
  destruct (mem r (new s)); simpl; auto.
Qed.

Lemma mem_filter_neq (x r : Ref) (l : list Ref) :
  mem x l = false -> mem x (filter (fun y => negb (Nat.eqb y r)) l) = false.
Proof.
  unfold mem. induction l as [| y l IH]; simpl; [reflexivity |].
  intros H. apply orb_false_iff in H. destruct H as [Hy Hl].
  destruct (negb (Nat.eqb y r)); simpl; [rewrite Hy |]; auto.
Qed.

Lemma mem_filter_self (r : Ref) (l : list Ref) :
  mem r (filter (fun y => negb (Nat.eqb y r)) l) = false.
Proof.
  unfold mem. induction l as [| y l IH]; simpl; [reflexivity |].
  destruct (Nat.eqb y r) eqn:E; simpl; [exact IH |].
  rewrite Nat.eqb_sym, E. exact IH.
Qed.

Lemma mem_app (x : Ref) (a b : list Ref) :
  mem x (a ++ b) = mem x a || mem x b.
Proof. unfold mem. apply existsb_app. Qed.

Lemma add_one_keeps (s : Session) (r x : Ref) :
  savable s x -> savable (add_one s r) x.
Proof.
  intros (Hlive & Hdel & Hrow). unfold savable, live, add_one in *.
  destruct (has_row r (rows s)); [| destruct (mem r (new s))]; simpl.
  - split; [exact Hlive |]. split; [apply mem_filter_neq; exact Hdel | exact Hrow].
  - auto.
  - split; [exact Hlive |]. split; [exact Hdel |].
    destruct Hrow as [H | H]; [left; exact H |].
    right. rewrite mem_app, H. reflexivity.
Qed.

Lemma add_one_deleted (s : Session) (r : Ref) :
  forallb (fun x => has_row x (rows s)) (deleted s) = true ->
  forallb (fun x => has_row x (rows (add_one s r))) (deleted (add_one s r))
  = true.
Proof.
  intros H. unfold add_one.
  destruct (has_row r (rows s)); [| destruct (mem r (new s))]; simpl; auto.
  rewrite forallb_forall in *. intros x Hx.
  apply filter_In in Hx. apply H. tauto.
Qed.

Lemma add_one_makes (s : Session) (r : Ref) :
  forallb (fun x => has_row x (rows s)) (deleted s) = true ->
  live s r = true -> savable (add_one s r) r.
Proof.
  intros Hdel Hlive. unfold savable, live, add_one in *.
  destruct (has_row r (rows s)) eqn:Hr; [| destruct (mem r (new s)) eqn:Hn];
    simpl.
  - split; [exact Hlive |]. split; [apply mem_filter_self | left; exact Hr].
  - split; [exact Hlive |]. split; [| right; exact Hn].
    destruct (mem r (deleted s)) eqn:Hd; [| reflexivity].
    rewrite forallb_forall in Hdel.
    rewrite (Hdel r (proj1 (mem_in r _) Hd)) in Hr. discriminate.
  - split; [exact Hlive |]. split.
    + destruct (mem r (deleted s)) eqn:Hd; [| reflexivity].
      rewrite forallb_forall in Hdel.
      rewrite (Hdel r (proj1 (mem_in r _) Hd)) in Hr. discriminate.
    + right. rewrite mem_app. simpl. rewrite Nat.eqb_refl.
      rewrite orb_true_r. reflexivity.
Qed.

Lemma add_all_savable (l : list Ref) (s : Session) :
  forallb (fun x => has_row x (rows s)) (deleted s) = true ->
  (forall r, In r l -> live s r = true) ->
  forall r, In r l -> savable (fold_left add_one l s) r.
Proof.
  revert s. induction l as [| a l IH]; intros s Hdel Hlive r Hin; [destruct Hin |].
  simpl.
  assert (Hkeep : forall l' s' x, savable s' x ->
                                  savable (fold_left add_one l' s') x).
  { induction l' as [| b l' IH']; intros s' x H; simpl; [exact H |].
    apply IH'. apply add_one_keeps. exact H. }
  destruct Hin as [-> | Hin].
  - apply Hkeep. apply add_one_makes; [exact Hdel |].
    apply Hlive. left. reflexivity.
  - apply IH; [apply add_one_deleted; exact Hdel | | exact Hin].
    intros x Hx. unfold live. destruct (add_one_shape s a) as [-> _].
    apply Hlive. right. exact Hx.
Qed.

(** ** [save] *)

(** C1, as the code has it.  On a well-formed session and with instances in
    memory, [save] returns: the instance, when given one instance; the list,
    when given a list of two or more; the element itself, not the list,
    when given a list of one. *)
Theorem save_returns (new_obj : ObjOrList) (session : Session) :
  wf_session session = true ->
  (forall r, In r (instances new_obj) -> live session r = true) ->
  instances new_obj <> [] ->
  (exists s', save new_obj session = (Return (save_result new_obj), s'))
  /\ (forall r, new_obj = One r -> save_result new_obj = RObj r)
  /\ (forall x, new_obj = Many [x] -> save_result new_obj = RObj x)
  /\ (forall x y l, new_obj = Many (x :: y :: l) ->
                    save_result new_obj = RList (x :: y :: l)).
Proof.
  intros Hwf Hlive Hne. split.
  - unfold wf_session in Hwf. apply andb_prop in Hwf. destruct Hwf as [_ Hdel].
    pose proof (add_all_savable (instances new_obj) session Hdel Hlive) as Hs.
    destruct (save_loop_ok (instances new_obj) _ Hs (instances new_obj)
                (incl_refl _) _ Hs) as [s' E].
    exists s'. unfold save, db_error.
    replace (match new_obj with Many l => l | One r => [r] end)
      with (instances new_obj) by (destruct new_obj; reflexivity).
    unfold bind, session_add_all in E |- *. rewrite E.
    clear E Hs Hlive.
    destruct new_obj as [r | [| x [| y l]]]; simpl; try reflexivity.
    exfalso. apply Hne. reflexivity.
  - repeat split; intros; subst; reflexivity.
Qed.

Lemma save_returns_witness :
  wf_session Examples.two_plants = true
  /\ fst (save (Many [0%nat; 1%nat]) Examples.two_plants)
     = Return (RList [0%nat; 1%nat]).
Proof.
  split; [reflexivity |].
  destruct (save_returns (Many [0%nat; 1%nat]) Examples.two_plants)
    as [[s' E] _].
  - reflexivity.
  - intros r [<- | [<- | []]]; reflexivity.
  - discriminate.
  - rewrite E. reflexivity.
Defined.

(** C1 as stated does not hold: given a list of one instance, [save]
    returns the instance and not the list. *)
Lemma save_list_of_one_unwrapped :
  fst (save (Many [1%nat]) Examples.two_plants) = Return (RObj 1%nat)
  /\ fst (save (Many [1%nat]) Examples.two_plants)
     <> Return (RList [1%nat]).
Proof. split; [reflexivity | discriminate]. Qed.

(** Given the empty list, [save] raises. *)
Lemma save_empty_list_raises (session : Session) :
  fst (save (Many []) session)
  = Raise (DatabaseError "list index out of range" 500).
Proof. reflexivity. Qed.

(** ** Reading twice *)

(** [get] with [one_or_none] and no ordering, in one piece. *)
Lemma get_one_spec (obj : Model) (filters : dict) (s : Session) :
  get obj (Some filters) None true s
  = match stmt_for obj filters with
    | Raise e => (Raise (reraised e), s)
    | Return stmt =>
        match run_stmt stmt (rows (flush s)) with
        | [] => (Return RNone, flush s)
        | [r] => (Return (RObj r), flush s)
        | _ =>
            (Raise (DatabaseError
                      "Multiple rows were found when one or none was required"
                      500), flush s)
        end
    end.
Proof.
  destruct (stmt_for obj filters) as [stmt | e] eqn:E.
  - unfold get, db_error, bind, lift, ret, session_exec_one_or_none.
    unfold stmt_for in E. destruct filters as [| kv rest].
    + inversion E; subst.
      destruct (run_stmt (select obj) (rows (flush s))) as [| r [| r' l]];
        reflexivity.
    + destruct (_build_clauses obj (kv :: rest)) as [cs | e0]; simpl in E;
        [| discriminate].
      inversion E; subst.
      match goal with
      | |- context [run_stmt ?st ?rs] =>
          destruct (run_stmt st rs) as [| r [| r' l]]; reflexivity
      end.
  - unfold get, db_error, bind, lift, ret, reraised.
    unfold stmt_for in E. destruct filters as [| kv rest]; [discriminate |].
    destruct (_build_clauses obj (kv :: rest)) as [cs | e0]; simpl in E;
      [discriminate |].
    inversion E; subst. destruct (isinstance_DatabaseError e); reflexivity.
Qed.

(** After a flush the session is synced, when its rows refer to instances
    in memory. *)
Lemma flush_synced (s : Session) :
  forallb (fun row => live s (row_obj row)) (rows s) = true ->
  synced (flush s)
  /\ forallb (fun row => live (flush s) (row_obj row)) (rows (flush s)) = true.
Proof.
  intros Hlive.
  destruct (fold_insert_shape (new s) s) as (Hlen & _ & _ & e & Hr & He & _).
  assert (Hall : Forall (fun row => live s (row_obj row) = true)
                   (rows (fold_left insert_one (new s) s))).
  { rewrite Hr. apply Forall_app. split; [| exact He].
    apply Forall_forall. rewrite forallb_forall in Hlive. exact Hlive. }
  unfold synced, flush. simpl. split; [split; [| split] |]; auto.
  - apply Forall_forall. intros row Hin. apply filter_In in Hin.
    destruct Hin as [Hin _]. apply in_map_iff in Hin.
    destruct Hin as [row0 [<- Hin0]].
    rewrite Forall_forall in Hall. specialize (Hall row0 Hin0).
    unfold live in Hall. apply Nat.ltb_lt in Hall. rewrite <- Hlen in Hall.
    apply nth_error_Some in Hall. unfold sync_row.
    destruct (nth_error (heap (fold_left insert_one (new s) s)) (row_obj row0))
      as [o |] eqn:E; [| congruence].
    simpl. rewrite E. exists o. auto.
  - apply forallb_forall. intros row Hin. apply filter_In in Hin.
    destruct Hin as [Hin _]. apply in_map_iff in Hin.
    destruct Hin as [row0 [<- Hin0]].
    rewrite Forall_forall in Hall. specialize (Hall row0 Hin0).
    unfold live in *. simpl. rewrite Hlen.
    unfold sync_row. destruct (nth_error _ (row_obj row0)); exact Hall.
Qed.


(** What a miss of the lookup tells. *)
Lemma lookup_miss (obj : Model) (filters : dict) (session s1 : Session) :
  lookup obj filters session = (Return RNone, s1) ->
  s1 = flush session
  /\ (dict_contains filters "id" = true ->
      find_identity obj (value_or_none (dict_get filters "id")) (rows s1)
      = None)
  /\ (dict_contains filters "id" = false ->
      exists stmt, stmt_for obj filters = Return stmt
                   /\ run_stmt stmt (rows s1) = []).
Proof.
  unfold lookup. destruct (dict_contains filters "id").
  - unfold get_by_id, db_error, bind, ret, session_get.
    set (id := value_or_none (dict_get filters "id")).
    destruct (find_identity obj id (rows session)) as [r |];
      [simpl; discriminate |].
    destruct (find_identity obj id (rows (flush session))) as [r |] eqn:E;
      cbn [of_option]; intros H; inversion H; subst s1.
    split; [reflexivity |]. split; [intros _; exact E | discriminate].
  - rewrite get_one_spec.
    destruct (stmt_for obj filters) as [stmt | e]; [| discriminate].
    destruct (run_stmt stmt (rows (flush session))) as [| r [| r' l]] eqn:E;
      intros H; inversion H; subst.
    split; [reflexivity |]. split; [discriminate |].
    intros _. exists stmt. auto.
Qed.

Lemma live_rows_no_fresh (s : Session) :
  forallb (fun row => live s (row_obj row)) (rows s) = true ->
  has_row (length (heap s)) (rows s) = false.
Proof.
  intros H. unfold has_row, find_row.
  destruct (find _ (rows s)) as [row |] eqn:E; [| reflexivity].
  apply find_some in E. destruct E as [Hin Heq].
  rewrite forallb_forall in H. specialize (H row Hin).
  unfold live in H. apply Nat.eqb_eq in Heq. rewrite Heq in H.
  rewrite Nat.ltb_irrefl in H. discriminate.
Qed.





(** ** [get_or_convert] *)




(** * Further properties of the code *)

(** ** Filter keys *)

Lemma split_dunder_cons (c : ascii) (rest : string) :
  split_dunder (String c rest)
  = let recur :=
      match split_dunder rest with
      | Some (before, after) => Some (String c before, after)
      | None => None
      end in
    if Ascii.eqb c "_" then
      match rest with
      | String d after =>
          if Ascii.eqb d "_" then Some (EmptyString, after) else recur
      | EmptyString => recur
      end
    else recur.
Proof.
  destruct c as [[] [] [] [] [] [] [] []]; try reflexivity.
  destruct rest as [| d after]; [reflexivity |].
  destruct d as [[] [] [] [] [] [] [] []]; reflexivity.
Qed.

Lemma split_dunder_head (s before after : string) (d : ascii) :
  split_dunder s = Some (String d before, after) ->
  exists rest, s = String d rest.
Proof.
  destruct s as [| c rest]; [discriminate |].
  rewrite split_dunder_cons. cbv zeta.
  assert (R : match split_dunder rest with
              | Some (b, a) => Some (String c b, a)
              | None => None
              end = Some (String d before, after) ->
              exists rest0, String c rest = String d rest0).
  { destruct (split_dunder rest) as [[b a] |]; [| discriminate].
    intros H. inversion H; subst. eexists. reflexivity. }
  destruct (Ascii.eqb c "_"); [| exact R].
  destruct rest as [| d' after']; [exact R |].
  destruct (Ascii.eqb d' "_"); [discriminate | exact R].
Qed.

Lemma split_dunder_before (s before after : string) :
  split_dunder s = Some (before, after) -> split_dunder before = None.
Proof.
  revert before after. induction s as [| c rest IH]; [discriminate |].
  intros before after. rewrite split_dunder_cons. cbv zeta.
  assert (R : match split_dunder rest with
              | Some (b, a) => Some (String c b, a)
              | None => None
              end = Some (before, after) ->
              (Ascii.eqb c "_" = true ->
               match rest with
               | String d _ => Ascii.eqb d "_" = false
               | EmptyString => True
               end) ->
              split_dunder before = None).
  { destruct (split_dunder rest) as [[b a] |] eqn:E; [| discriminate].
    intros H Hhead. inversion H; subst. clear H.
    rewrite split_dunder_cons. cbv zeta. rewrite (IH b after eq_refl).
    destruct (Ascii.eqb c "_") eqn:Ec; [| reflexivity].
    destruct b as [| d b']; [reflexivity |].
    destruct (split_dunder_head rest b' after d E) as [rest0 ->].
    rewrite (Hhead eq_refl). reflexivity. }
  destruct (Ascii.eqb c "_") eqn:Ec.
  - destruct rest as [| d after'].
    + intros H. apply R; auto.
    + destruct (Ascii.eqb d "_") eqn:Ed.
      * intros H. inversion H. reflexivity.
      * intros H. apply R; auto.
  - intros H. apply R; [exact H | discriminate].
Qed.

Lemma apply_op_col (model : Model) (field op : string) (value : Value)
  (sql c : Clause) :
  apply_op model field op value sql = Return c ->
  clause_col sql = getattr model field ->
  clause_col c = getattr model field.
Proof.
  unfold apply_op. destruct (plain_attr model field) as [p |].
  - destruct (plain_op p op value) as [b | e]; simpl; intros H;
      inversion H; reflexivity.
  - intros H. inversion H. auto.
Qed.

(** X1.  The field a filter key is read as never holds ["__"], so no clause
    is ever built on an attribute whose name holds it. *)
Theorem filter_field_has_no_dunder (model : Model) (raw_key : string)
  (value : Value) :
  contains_dunder (fst (parse_key raw_key)) = false
  /\ forall c, build_clause model raw_key value = Return c ->
               contains_dunder (col_field (clause_col c)) = false.
Proof.
  assert (H : contains_dunder (fst (parse_key raw_key)) = false).
  { unfold parse_key, contains_dunder.
    destruct (split_dunder raw_key) as [[field op] |] eqn:E; simpl.
    - rewrite (split_dunder_before _ _ _ E). reflexivity.
    - rewrite E. reflexivity. }
  split; [exact H |].
  intros c Hc.
  assert (Hcol : clause_col c = getattr model (fst (parse_key raw_key))).
  { unfold build_clause in Hc.
    destruct (parse_key raw_key) as [field op]. simpl.
    repeat match type of Hc with
           | context [if ?b then _ else _] => destruct b
           end;
      try discriminate; (eapply apply_op_col; [exact Hc | reflexivity]). }
  rewrite Hcol. exact H.
Qed.

Lemma filter_field_has_no_dunder_witness :
  build_clause Examples.Plant "name__ne" (VStr "Fern")
  = Return (CNe (getattr Examples.Plant "name") (VStr "Fern"))
  /\ contains_dunder "name" = false.
Proof.
  split; [reflexivity |].
  destruct (filter_field_has_no_dunder Examples.Plant "name__ne" (VStr "Fern"))
    as [_ H].
  exact (H (CNe (getattr Examples.Plant "name") (VStr "Fern")) eq_refl).
Defined.

Lemma split_dunder_round_trip (field op : string) :
  split_dunder (field ++ "_") = None ->
  split_dunder (field ++ "__" ++ op) = Some (field, op).
Proof.
  induction field as [| c f IH]; [reflexivity |].
  change (String c f ++ "_") with (String c (f ++ "_")).
  change (String c f ++ "__" ++ op) with (String c (f ++ "__" ++ op)).
  rewrite !split_dunder_cons. cbv zeta. intros H.
  assert (Hf : split_dunder (f ++ "_") = None).
  { destruct (split_dunder (f ++ "_")) as [[b a] |]; [| reflexivity].
    destruct (Ascii.eqb c "_"); [| discriminate].
    destruct (f ++ "_") as [| d after]; [discriminate |].
    destruct (Ascii.eqb d "_"); discriminate. }
  rewrite (IH Hf).
  destruct (Ascii.eqb c "_"); [| reflexivity].
  destruct f as [| d f']; simpl in *; [discriminate |].
  destruct (Ascii.eqb d "_"); [discriminate | reflexivity].
Qed.

(** X2.  A key made of a field, ["__"] and an operator is read back as that
    field and that operator, when the field neither holds ["__"] nor ends in
    an underscore; the operator may be any text. *)
Theorem parse_key_round_trip (field op : string) :
  contains_dunder (field ++ "_") = false ->
  parse_key (field ++ "__" ++ op) = (field, op).
Proof.
  unfold contains_dunder, parse_key. intros H.
  destruct (split_dunder (field ++ "_")) as [p |] eqn:E; [discriminate |].
  rewrite (split_dunder_round_trip field op E). reflexivity.
Qed.

Lemma parse_key_round_trip_witness :
  contains_dunder ("created_at" ++ "_") = false
  /\ parse_key ("created_at" ++ "__" ++ "gte") = ("created_at", "gte").
Proof.
  split; [reflexivity |].
  apply (parse_key_round_trip "created_at" "gte"). reflexivity.
Defined.

(** ** The builders on concatenated input *)

Lemma build_clauses_loop_acc (model : Model) (items : dict) :
  forall acc,
    build_clauses_loop model items acc
    = bindR (build_clauses_loop model items [])
            (fun cs => Return (acc ++ cs)%list).
Proof.
  induction items as [| [k v] rest IH]; intros acc; simpl.
  - rewrite app_nil_r. reflexivity.
  - destruct (build_clause model k v) as [c | e]; simpl; [| reflexivity].
    rewrite (IH (acc ++ [c])%list), (IH [c]).
    destruct (build_clauses_loop model rest []) as [cs | e]; simpl;
      [| reflexivity].
    rewrite <- app_assoc. reflexivity.
Qed.

Lemma build_clauses_loop_split (model : Model) (a b : dict) :
  forall acc,
    build_clauses_loop model (a ++ b)%list acc
    = bindR (build_clauses_loop model a acc)
            (fun ca => build_clauses_loop model b ca).
Proof.
  induction a as [| [k v] a IH]; intros acc; simpl; [reflexivity |].
  destruct (build_clause model k v) as [c | e]; simpl; [| reflexivity].
  apply IH.
Qed.

(** X3.  The clauses of two filter mappings put one after the other are the
    clauses of the first followed by those of the second; a failure in the
    first is the failure of the whole, and the second is then not read. *)
Theorem build_clauses_app (model : Model) (a b : dict) :
  _build_clauses model (a ++ b)%list
  = bindR (_build_clauses model a)
          (fun ca => bindR (_build_clauses model b)
                           (fun cb => Return (ca ++ cb)%list)).
Proof.
  unfold _build_clauses. rewrite build_clauses_loop_split.
  destruct (build_clauses_loop model a []) as [ca | e]; simpl;
    [| reflexivity].
  apply build_clauses_loop_acc.
Qed.



Lemma refused_app (a b : list OrderTerm) :
  refused (a ++ b)
  = match refused a with
    | Some e => Some e
    | None => refused b
    end.
Proof.
  induction a as [| t a IH]; [reflexivity |].
  destruct t; simpl; auto.
Qed.

(** A name that is no plain attribute is a mapped column or refused. *)
Lemma order_col_cases (obj : Model) (o : string) :
  plain_attr obj (order_field o) = None ->
  order_col obj o = Return (order_term obj o)
  \/ order_col obj o
     = Raise (ValidationError
                ("Order field '" ++ order_field o ++ "' not found")).
Proof.
  intros Hp. destruct (hasattr obj (order_field o)) eqn:H.
  - left. apply order_col_ok.
    destruct (hasattr_cases obj _ H) as [Hf | [p Hq]]; [exact Hf |].
    rewrite Hp in Hq. discriminate.
  - right. apply order_col_missing. exact H.
Qed.

Lemma order_cols_loop_cases (obj : Model) (order_by : list string) :
  (forall o, In o order_by -> plain_attr obj (order_field o) = None) ->
  forall acc,
    refused acc = None ->
    match order_cols_loop obj order_by acc with
    | Return ts => refused ts = None
    | Raise e => exists msg, e = ValidationError msg
    end.
Proof.
  induction order_by as [| o rest IH]; simpl; intros Hp acc Hacc;
    [exact Hacc |].
  destruct (order_col_cases obj o (Hp o (or_introl eq_refl))) as [-> | ->];
    simpl.
  - apply IH; [intros o' Hin; apply Hp; right; exact Hin |].
    rewrite refused_app, Hacc. unfold order_term.
    destruct (descending o); reflexivity.
  - eexists. reflexivity.
Qed.




Lemma order_cols_loop_acc (obj : Model) (order_by : list string) :
  forall acc,
    order_cols_loop obj order_by acc
    = bindR (order_cols_loop obj order_by [])
            (fun ts => Return (acc ++ ts)%list).
Proof.
  induction order_by as [| o rest IH]; intros acc; simpl.
  - rewrite app_nil_r. reflexivity.
  - destruct (order_col obj o) as [t | e]; simpl; [| reflexivity].
    rewrite (IH (acc ++ [t])%list), (IH [t]).
    destruct (order_cols_loop obj rest []) as [ts | e]; simpl;
      [| reflexivity].
    rewrite <- app_assoc. reflexivity.
Qed.

Lemma order_cols_loop_split (obj : Model) (a b : list string) :
  forall acc,
    order_cols_loop obj (a ++ b)%list acc
    = bindR (order_cols_loop obj a acc)
            (fun ta => order_cols_loop obj b ta).
Proof.
  induction a as [| o a IH]; intros acc; simpl; [reflexivity |].
  destruct (order_col obj o) as [t | e]; simpl; [| reflexivity].
  apply IH.
Qed.

Lemma order_cols_loop_length (obj : Model) (order_by : list string) :
  forall acc ts,
    order_cols_loop obj order_by acc = Return ts ->
    exists added, ts = (acc ++ added)%list /\ length added = length order_by.
Proof.
  induction order_by as [| o rest IH]; simpl; intros acc ts H.
  - inversion H; subst. exists []. rewrite app_nil_r. auto.
  - destruct (order_col obj o) as [t | e]; simpl in H; [| discriminate].
    destruct (IH _ _ H) as (added & -> & Hlen).
    exists (t :: added). rewrite <- app_assoc. simpl. auto.
Qed.

(** What a call of [_order_by] that returns has added to the query. *)
Lemma order_by_returns (order_by : list string) (obj : Model)
  (query ordered : Stmt) :
  _order_by order_by obj query = Return ordered ->
  exists added,
    ordered = order_by_ query added /\ length added = length order_by.
Proof.
  unfold _order_by.
  destruct (order_cols_loop obj order_by []) as [ts | e] eqn:E; simpl;
    [| discriminate].
  destruct (order_cols_loop_length obj order_by [] ts E) as (added & -> & Hl).
  unfold query_order_by. simpl.
  destruct (refused added); [discriminate |].
  intros H. inversion H. exists added. auto.
Qed.

(** X5.  Ordering a query by one list of names and the result by a second
    list is ordering it once by the two lists put together, when no name of
    the first list stands for an attribute that is not a mapped column: the
    failure of either is the failure of the whole, and when both return, the
    query holds the terms it had, then one term per name of the first list,
    then one per name of the second. *)
Theorem order_by_twice (a b : list string) (obj : Model) (query : Stmt) :
  (forall o, In o a -> plain_attr obj (order_field o) = None) ->
  bindR (_order_by a obj query) (fun q => _order_by b obj q)
  = _order_by (a ++ b)%list obj query
  /\ forall first second,
       _order_by a obj query = Return first ->
       _order_by b obj first = Return second ->
       exists ta tb,
         stmt_order first = (stmt_order query ++ ta)%list
         /\ stmt_order second = (stmt_order query ++ ta ++ tb)%list
         /\ length ta = length a /\ length tb = length b.
Proof.
  intros Hp. split.
  - unfold _order_by. rewrite order_cols_loop_split.
    pose proof (order_cols_loop_cases obj a Hp [] eq_refl) as Ha.
    destruct (order_cols_loop obj a []) as [ta | e]; simpl; [| reflexivity].
    unfold query_order_by at 1. rewrite Ha. simpl.
    rewrite (order_cols_loop_acc obj b ta).
    destruct (order_cols_loop obj b []) as [tb | e]; simpl; [| reflexivity].
    unfold query_order_by. rewrite refused_app, Ha.
    destruct (refused tb); [reflexivity |].
    unfold order_by_. simpl. rewrite app_assoc. reflexivity.
  - intros first second H1 H2.
    destruct (order_by_returns a obj query first H1) as (ta & -> & Hla).
    destruct (order_by_returns b obj _ second H2) as (tb & -> & Hlb).
    exists ta, tb. simpl. rewrite app_assoc. auto.
Qed.

Lemma order_by_twice_witness :
  bindR (_order_by ["-name"] Examples.Plant (select Examples.Plant))
        (fun q => _order_by ["id"] Examples.Plant q)
  = Return {| stmt_model := Examples.Plant;
              stmt_where := [];
              stmt_order := [Desc (getattr Examples.Plant "name");
                             Asc (getattr Examples.Plant "id")] |}
  /\ bindR (_order_by ["-name"] Examples.Plant (select Examples.Plant))
           (fun q => _order_by ["model_dump"; "height"] Examples.Plant q)
     = Raise (ValidationError "Order field 'height' not found").
Proof.
  split.
  - destruct (order_by_twice ["-name"] ["id"] Examples.Plant
                (select Examples.Plant)) as [E _].
    + intros o [<- | []]. reflexivity.
    + rewrite E. reflexivity.
  - destruct (order_by_twice ["-name"] ["model_dump"; "height"]
                Examples.Plant (select Examples.Plant)) as [E _].
    + intros o [<- | []]. reflexivity.
    + rewrite E. reflexivity.
Defined.

(** ** [get] *)

(** [get] in one piece: the statement is built first, the session is used
    only to run it. *)
Lemma get_spec (obj : Model) (filters : option dict)
  (order_by : option (list string)) (one_or_none : bool) (s : Session) :
  get obj filters order_by one_or_none s
  = match get_stmt obj filters order_by with
    | Raise e => (Raise (reraised e), s)
    | Return stmt =>
        (if one_or_none
         then one_or_none_of (run_stmt stmt (rows (flush s)))
         else Return (RList (run_stmt stmt (rows (flush s)))),
         flush s)
    end.
Proof.
  destruct (get_stmt obj filters order_by) as [stmt | e] eqn:E.
  - unfold get_stmt, stmt_for in E.
    unfold get, db_error, bind, lift, ret, session_exec_one_or_none,
      session_exec_all, one_or_none_of.
    destruct filters as [[| kv rest] |]; simpl in E.
    + destruct order_by as [[| o os] |]; simpl in E.
      * inversion E; subst. destruct one_or_none; [| reflexivity].
        destruct (run_stmt _ _) as [| r [| r' l]]; reflexivity.
      * rewrite E. destruct one_or_none; [| reflexivity].
        destruct (run_stmt _ _) as [| r [| r' l]]; reflexivity.
      * inversion E; subst. destruct one_or_none; [| reflexivity].
        destruct (run_stmt _ _) as [| r [| r' l]]; reflexivity.
    + destruct (_build_clauses obj (kv :: rest)) as [cs | e0]; simpl in E;
        [| discriminate].
      destruct order_by as [[| o os] |]; simpl in E.
      * inversion E; subst. destruct one_or_none; [| reflexivity].
        destruct (run_stmt _ _) as [| r [| r' l]]; reflexivity.
      * rewrite E. destruct one_or_none; [| reflexivity].
        destruct (run_stmt _ _) as [| r [| r' l]]; reflexivity.
      * inversion E; subst. destruct one_or_none; [| reflexivity].
        destruct (run_stmt _ _) as [| r [| r' l]]; reflexivity.
    + destruct order_by as [[| o os] |]; simpl in E.
      * inversion E; subst. destruct one_or_none; [| reflexivity].
        destruct (run_stmt _ _) as [| r [| r' l]]; reflexivity.
      * rewrite E. destruct one_or_none; [| reflexivity].
        destruct (run_stmt _ _) as [| r [| r' l]]; reflexivity.
      * inversion E; subst. destruct one_or_none; [| reflexivity].
        destruct (run_stmt _ _) as [| r [| r' l]]; reflexivity.
  - unfold get_stmt, stmt_for in E.
    unfold get, db_error, bind, lift, ret, reraised.
    destruct filters as [[| kv rest] |]; simpl in E.
    + destruct order_by as [[| o os] |]; simpl in E; try discriminate.
      rewrite E. destruct (isinstance_DatabaseError e); reflexivity.
    + destruct (_build_clauses obj (kv :: rest)) as [cs | e0]; simpl in E.
      * destruct order_by as [[| o os] |]; simpl in E; try discriminate.
        rewrite E. destruct (isinstance_DatabaseError e); reflexivity.
      * inversion E; subst. destruct (isinstance_DatabaseError e);
          reflexivity.
    + destruct order_by as [[| o os] |]; simpl in E; try discriminate.
      rewrite E. destruct (isinstance_DatabaseError e); reflexivity.
Qed.

(** X6.  When building the statement fails, [get] raises what the builder
    raised as [db_error] hands it on, a [ValidationError] as it is and any
    other exception as a [DatabaseError] with status 500, and hands the
    session back as it got it: nothing is flushed and no statement is run.
    A bad filter is reported before a bad order name. *)
Theorem get_refuses_before_query (obj : Model) (filters : option dict)
  (order_by : option (list string)) (one_or_none : bool) (s : Session) :
  (forall e, get_stmt obj filters order_by = Raise e ->
             get obj filters order_by one_or_none s = (Raise (reraised e), s)
             /\ (forall msg, e = ValidationError msg -> reraised e = e)
             /\ (isinstance_DatabaseError e = false ->
                 reraised e = DatabaseError (str e) 500))
  /\ (forall f e, filters = Some f -> _build_clauses obj f = Raise e ->
                  get obj filters order_by one_or_none s
                  = (Raise (reraised e), s))
  /\ (forall o e, filters = None -> order_by = Some o ->
                  _order_by o obj (select obj) = Raise e ->
                  get obj filters order_by one_or_none s
                  = (Raise (reraised e), s)).
Proof.
  split; [| split].
  - intros e E. rewrite get_spec, E. split; [reflexivity |]. split.
    + intros msg ->. reflexivity.
    + unfold reraised. intros ->. reflexivity.
  - intros f e -> E. rewrite get_spec. unfold get_stmt, stmt_for.
    destruct f as [| kv rest]; [discriminate |]. rewrite E. reflexivity.
  - intros o e -> -> E. rewrite get_spec. unfold get_stmt. simpl.
    destruct o as [| o os]; [discriminate |]. rewrite E. reflexivity.
Qed.

Lemma get_refuses_before_query_witness :
  get Examples.Plant (Some [("name__zz", VStr "F"); ("id", VInt 1)])
    (Some ["height"]) false Examples.two_plants
  = (Raise (ValidationError "Unsupported filter operation: zz"),
     Examples.two_plants)
  /\ get Examples.Plant None (Some ["-model_dump"]) false Examples.two_plants
     = (Raise (DatabaseError "'function' object has no attribute 'desc'" 500),
        Examples.two_plants).
Proof.
  split.
  - destruct (get_refuses_before_query Examples.Plant
                (Some [("name__zz", VStr "F"); ("id", VInt 1)])
                (Some ["height"]) false Examples.two_plants) as (_ & H & _).
    exact (H _ _ eq_refl eq_refl).
  - destruct (get_refuses_before_query Examples.Plant None
                (Some ["-model_dump"]) false Examples.two_plants)
      as (_ & _ & H).
    exact (H _ _ eq_refl eq_refl eq_refl).
Defined.





(** X8.  With [one_or_none], [get] returns [None] where the plain call
    returns the empty list and the instance where it returns a list of
    one; where the plain call returns two or more it raises a
    [DatabaseError] of status 500.  The session is left the same by both. *)
Theorem get_one_or_none_of_list (obj : Model) (filters : option dict)
  (order_by : option (list string)) (s s1 : Session) (l : list Ref) :
  get obj filters order_by false s = (Return (RList l), s1) ->
  get obj filters order_by true s = (one_or_none_of l, s1)
  /\ (forall x y rest, l = x :: y :: rest ->
        exists msg, one_or_none_of l = Raise (DatabaseError msg 500)).
Proof.
  rewrite !get_spec.
  destruct (get_stmt obj filters order_by) as [stmt | e]; [| discriminate].
  intros H. inversion H; subst. split; [reflexivity |].
  intros x y rest ->. eexists. reflexivity.
Qed.

Lemma get_one_or_none_of_list_witness :
  exists l,
    get Examples.Plant None None false
      (snd (save (One 1%nat) Examples.two_plants))
    = (Return (RList l), snd (save (One 1%nat) Examples.two_plants))
    /\ length l = 2%nat
    /\ fst (get Examples.Plant None None true
              (snd (save (One 1%nat) Examples.two_plants)))
       = Raise (DatabaseError
                  "Multiple rows were found when one or none was required"
                  500).
Proof.
  eexists. split; [reflexivity |]. split; [reflexivity |].
  match goal with
  | |- context [get _ _ _ _ ?s] =>
      destruct (get_one_or_none_of_list Examples.Plant None None s s _
                  eq_refl) as [E _]
  end.
  rewrite E. reflexivity.
Defined.

(** ** [get_by_id] against [delete] *)

(** X9.  [get_by_id] returns [None] for an id exactly when [delete] with
    the same arguments raises [NotFoundError]: the two read the session the
    same way and leave the same session, and only [delete] takes the
    absence for an error. *)
Theorem get_by_id_none_iff_not_found (obj : Model) (id : Value)
  (s s1 : Session) :
  get_by_id obj id s = (Return RNone, s1)
  <-> delete obj id s
      = (Raise (NotFoundError (model_name obj ++ " not found")), s1).
Proof.
  destruct (session_get_cases obj id s) as (o & s0 & E & Hrow).
  unfold get_by_id, delete, db_error, bind, ret. rewrite E.
  destruct o as [r |]; simpl.
  - unfold session_delete. rewrite (Hrow r eq_refl). simpl.
    split; intros H; discriminate.
  - split; intros H; inversion H; reflexivity.
Qed.

Lemma get_by_id_none_iff_not_found_witness :
  get_by_id Examples.Plant (VInt 2) Examples.fern_session
  = (Return RNone, Examples.fern_session)
  /\ delete Examples.Plant (VInt 2) Examples.fern_session
     = (Raise (NotFoundError "Plant not found"), Examples.fern_session).
Proof.
  split; [reflexivity |].
  apply (get_by_id_none_iff_not_found Examples.Plant (VInt 2)
           Examples.fern_session Examples.fern_session).
  reflexivity.
Defined.

(** ** The wrapper applied twice *)

(** X10.  Wrapping a wrapped operation again changes nothing: what the
    inner wrapper lets out goes through the outer one untouched. *)
Theorem db_error_idempotent {S A} (func : M S A) (s : S) :
  db_error (db_error func) s = db_error func s.
Proof.
  unfold db_error. destruct (func s) as [[r | e] s']; [reflexivity |].
  destruct (isinstance_DatabaseError e) eqn:E; [rewrite E |]; reflexivity.
Qed.

(** ** What [save] leaves behind *)

Lemma list_set_same {A} (l : list A) (i : nat) (x : A) :
  nth_error l i = Some x -> list_set l i x = l.
Proof.
  revert i. induction l as [| h t IH]; intros [| i]; simpl; try discriminate.
  - intros H. inversion H. reflexivity.
  - intros H. rewrite (IH i H). reflexivity.
Qed.

Lemma nth_error_list_set {A} (l : list A) (i j : nat) (x : A) :
  nth_error (list_set l i x) j
  = if Nat.eqb i j
    then match nth_error l j with Some _ => Some x | None => None end
    else nth_error l j.
Proof.
  revert i j. induction l as [| h t IH]; intros [| i] [| j]; simpl;
    try reflexivity; try (destruct (Nat.eqb i j); reflexivity).
  apply IH.
Qed.

Lemma set_dict_same (r : Ref) (d : dict) (s : Session) (o : Obj) :
  nth_error (heap s) r = Some o -> obj_dict o = d -> set_dict r d s = s.
Proof.
  intros Ho Hd. unfold set_dict. rewrite Ho.
  destruct o as [m d0]. simpl in *. subst d0.
  rewrite (list_set_same _ _ _ Ho). destruct s. reflexivity.
Qed.

Lemma synced_row (s : Session) (r : Ref) (row : Row) :
  synced s -> find_row r (rows s) = Some row ->
  exists o, nth_error (heap s) r = Some o /\ row_vals row = obj_dict o.
Proof.
  intros (_ & _ & HF) E. unfold find_row in E. apply find_some in E.
  destruct E as [Hin Heq]. apply Nat.eqb_eq in Heq. subst r.
  rewrite Forall_forall in HF. exact (HF row Hin).
Qed.

Lemma flush_synced_same (s : Session) : synced s -> flush s = s.
Proof.
  intros (Hnew & Hdel & Hrows). unfold flush. rewrite Hnew, Hdel. simpl.
  destruct s as [h rs n d]. simpl in *. subst n d. f_equal.
  induction rs as [| row rs IH]; simpl; [reflexivity |].
  inversion Hrows as [| ? ? (o' & Ho & Hv) Hrest]; subst.
  rewrite (IH Hrest). f_equal.
  unfold sync_row. rewrite Ho. destruct row as [r t v]. simpl in *.
  subst. reflexivity.
Qed.

(** On a flushed session the refresh of an instance with a row changes
    nothing. *)
Lemma refresh_synced (s : Session) (r : Ref) :
  synced s -> has_row r (rows s) = true ->
  session_refresh r s = (Return tt, s).
Proof.
  intros Hs Hr. unfold session_refresh, has_row in *.
  destruct (find_row r (rows s)) as [row |] eqn:E; [| discriminate].
  destruct (synced_row s r row Hs E) as (o & Ho & Hv).
  rewrite (set_dict_same r (row_vals row) s o Ho (eq_sym Hv)).
  rewrite (flush_synced_same s Hs), E.
  rewrite (set_dict_same r (row_vals row) s o Ho (eq_sym Hv)).
  reflexivity.
Qed.

Lemma save_loop_exact (l : list Ref) :
  forall s,
    forallb (fun row => live s (row_obj row)) (rows s) = true ->
    (forall x, In x l -> savable s x) ->
    for_each l (fun obj => session_flush ;;; session_refresh obj) s
    = (Return tt, match l with [] => s | _ => flush s end).
Proof.
  induction l as [| r l IH]; intros s Hlive Hall; [reflexivity |].
  destruct (flush_synced s Hlive) as [Hsync Hlive'].
  assert (Hall' : forall x, In x (r :: l) -> savable (flush s) x).
  { intros x Hx. apply (flush_savable s x (Hall x Hx)). }
  destruct (flush_savable s r (Hall r (or_introl eq_refl))) as [_ Hrow].
  simpl. unfold bind at 1. unfold bind at 1. unfold session_flush at 1.
  rewrite (refresh_synced (flush s) r Hsync Hrow).
  rewrite (IH (flush s) Hlive').
  - destruct l; [reflexivity |].
    rewrite (flush_synced_same (flush s) Hsync). reflexivity.
  - intros x Hx. apply Hall'. right. exact Hx.
Qed.

Lemma add_all_shape (l : list Ref) (s : Session) :
  heap (fold_left add_one l s) = heap s
  /\ rows (fold_left add_one l s) = rows s.
Proof.
  revert s. induction l as [| r l IH]; intros s; simpl; [auto |].
  destruct (IH (add_one s r)) as [-> ->]. apply add_one_shape.
Qed.

(** [save] in one piece, on a well-formed session. *)
Lemma save_exact (new_obj : ObjOrList) (s : Session) :
  wf_session s = true ->
  (forall r, In r (instances new_obj) -> live s r = true) ->
  instances new_obj <> [] ->
  save new_obj s
  = (Return (save_result new_obj),
     flush (fold_left add_one (instances new_obj) s))
  /\ synced (flush (fold_left add_one (instances new_obj) s))
  /\ forall r, In r (instances new_obj) ->
               has_row r (rows (flush (fold_left add_one
                                         (instances new_obj) s))) = true.
Proof.
  intros Hwf Hlive Hne.
  unfold wf_session in Hwf. apply andb_prop in Hwf. destruct Hwf as [Hwf Hdel].
  apply andb_prop in Hwf. destruct Hwf as [Hrows _].
  set (l := instances new_obj) in *.
  set (s0 := fold_left add_one l s).
  pose proof (add_all_savable l s Hdel Hlive) as Hs. fold s0 in Hs.
  assert (Hrows0 : forallb (fun row => live s0 (row_obj row)) (rows s0) = true).
  { unfold live, s0. destruct (add_all_shape l s) as [-> ->]. exact Hrows. }
  split; [| split].
  - unfold save, db_error.
    replace (match new_obj with Many l0 => l0 | One r => [r] end)
      with l by (destruct new_obj; reflexivity).
    unfold bind at 1, session_add_all. fold s0.
    unfold bind at 1. rewrite (save_loop_exact l s0 Hrows0 Hs).
    subst l. destruct new_obj as [r | [| x [| y l']]]; simpl; try reflexivity.
    exfalso. apply Hne. reflexivity.
  - apply (flush_synced s0 Hrows0).
  - intros r Hr. apply (flush_savable s0 r (Hs r Hr)).
Qed.

(** X11.  Given the empty list, [save] raises a [DatabaseError] of status
    500 whose message is that of the [IndexError], and the session is as it
    was: nothing was added or flushed. *)
Theorem save_empty_list (session : Session) :
  save (Many []) session
  = (Raise (DatabaseError "list index out of range" 500), session).
Proof. reflexivity. Qed.

(** X12.  Whenever [save] returns on a well-formed session, with rows the
    engine accepted, nothing is pending or marked for deletion, every row
    holds the attributes of its instance, and each instance given has a row
    whose values are the attributes the instance now has. *)
Theorem save_persists (new_obj : ObjOrList) (session s' : Session)
  (res : Ret) :
  wf_session session = true ->
  (forall r, In r (instances new_obj) -> live session r = true) ->
  save new_obj session = (Return res, s') ->
  unique_keys s' = true ->
  res = save_result new_obj
  /\ synced s'
  /\ forall r, In r (instances new_obj) ->
               exists row, find_row r (rows s') = Some row
                           /\ row_vals row = model_dump r s'.
Proof.
  intros Hwf Hlive Hsave _.
  assert (Hne : instances new_obj <> []).
  { destruct new_obj as [r | [| x l]]; discriminate. }
  destruct (save_exact new_obj session Hwf Hlive Hne) as (E & Hs & Hr).
  rewrite E in Hsave. inversion Hsave; subst res s'. clear Hsave.
  split; [reflexivity |]. split; [exact Hs |].
  intros r Hin. specialize (Hr r Hin). unfold has_row in Hr.
  destruct (find_row r _) as [row |] eqn:Er; [| discriminate].
  exists row. split; [reflexivity |].
  destruct (synced_row _ r row Hs Er) as (o & Ho & Hv).
  unfold model_dump. rewrite Ho. exact Hv.
Qed.

Lemma save_persists_witness :
  wf_session Examples.two_plants = true
  /\ unique_keys (snd (save (One 1%nat) Examples.two_plants)) = true
  /\ fst (save (One 1%nat) Examples.two_plants) = Return (RObj 1%nat)
  /\ new (snd (save (One 1%nat) Examples.two_plants)) = []
  /\ has_row 1%nat (rows (snd (save (One 1%nat) Examples.two_plants))) = true.
Proof.
  split; [reflexivity |]. split; [reflexivity |]. split; [reflexivity |].
  destruct (save_persists (One 1%nat) Examples.two_plants
              (snd (save (One 1%nat) Examples.two_plants)) (RObj 1%nat))
    as (_ & Hs & Hr).
  - reflexivity.
  - intros r [<- | []]. reflexivity.
  - reflexivity.
  - reflexivity.
  - split; [destruct Hs as (Hn & _); exact Hn |].
    destruct (Hr 1%nat (or_introl eq_refl)) as (row & Hrow & _).
    unfold has_row. rewrite Hrow. reflexivity.
Defined.

(** ** [get_or_create] and [get_or_convert] *)

Lemma lookup_returns (obj : Model) (filters : dict) (s s1 : Session)
  (x : Ret) :
  lookup obj filters s = (Return x, s1) -> x = RNone \/ exists r, x = RObj r.
Proof.
  unfold lookup. destruct (dict_contains filters "id").
  - unfold get_by_id, db_error, bind, ret.
    destruct (session_get_cases obj (value_or_none (dict_get filters "id")) s)
      as (o & s0 & E & _).
    rewrite E. simpl. intros H. inversion H; subst.
    destruct o as [r |]; simpl; eauto.
  - rewrite get_spec.
    destruct (get_stmt obj (Some filters) None) as [stmt | e];
      [| discriminate].
    unfold one_or_none_of.
    destruct (run_stmt stmt (rows (flush s))) as [| r [| r' l]];
      intros H; inversion H; subst; eauto.
Qed.

(** X14.  When the lookup does not miss, [get_or_create] and
    [get_or_convert] do the same: both return the instance found, or raise
    what the lookup raised, and leave the session the lookup left; nothing
    is constructed and nothing is saved. *)
Theorem get_or_create_unless_miss (obj : Model) (vals filters : dict)
  (s s1 : Session) (res : Result Ret) :
  blank_filter filters = false ->
  lookup obj filters s = (res, s1) ->
  res <> Return RNone ->
  get_or_create obj vals filters s = (res, s1)
  /\ get_or_convert obj vals filters s = (res, s1)
  /\ ((exists r, res = Return (RObj r)) \/ (exists e, res = Raise e)).
Proof.
  intros Hb Hl Hres. unfold get_or_create, get_or_convert, bind.
  rewrite Hb, Hl. destruct res as [x | e].
  - destruct (lookup_returns obj filters s s1 x Hl) as [-> | [r ->]].
    + contradiction Hres; reflexivity.
    + simpl. repeat split. left. eexists. reflexivity.
  - repeat split. right. eexists. reflexivity.
Qed.

Lemma get_or_create_unless_miss_witness :
  lookup Examples.Plant [("name", VStr "Fern")] Examples.two_plants
  = (Return (RObj 0%nat), Examples.two_plants)
  /\ get_or_create Examples.Plant Examples.moss [("name", VStr "Fern")]
       Examples.two_plants
     = (Return (RObj 0%nat), Examples.two_plants).
Proof.
  split; [reflexivity |].
  apply (get_or_create_unless_miss Examples.Plant Examples.moss
           [("name", VStr "Fern")] Examples.two_plants Examples.two_plants
           (Return (RObj 0%nat)) eq_refl eq_refl).
  discriminate.
Defined.

Lemma blank_filter_false_in (filters : dict) (k : string) (v : Value) :
  blank_filter filters = false -> In (k, v) filters ->
  value_in v [VNone; VStr ""] = false.
Proof.
  induction filters as [| [k' v'] rest IH]; simpl; intros Hb Hin;
    [destruct Hin |].
  destruct (value_eqb v' VNone || (value_eqb v' (VStr "") || false)) eqn:E;
    [discriminate |].
  destruct Hin as [H | H].
  - inversion H; subst. exact E.
  - exact (IH Hb H).
Qed.

(** X15.  With an [id] among the filters the lookup goes by that key alone:
    the other filters, well formed or not, are not read, and
    [get_or_create] and [get_or_convert] behave as with the [id] filter
    only. *)
Theorem lookup_by_id_ignores_other_filters (obj : Model)
  (vals filters : dict) (v : Value) (s : Session) :
  blank_filter filters = false ->
  dict_get filters "id" = Some v ->
  lookup obj filters s = get_by_id obj v s
  /\ get_or_create obj vals filters s
     = get_or_create obj vals [("id", v)] s
  /\ get_or_convert obj vals filters s
     = get_or_convert obj vals [("id", v)] s.
Proof.
  intros Hb Hv.
  assert (Hl : forall s0, lookup obj filters s0 = lookup obj [("id", v)] s0).
  { intros s0. unfold lookup, dict_contains. rewrite Hv. reflexivity. }
  assert (Hb1 : blank_filter [("id", v)] = false).
  { simpl.
    pose proof (blank_filter_false_in filters "id" v Hb
                  (dict_get_in _ _ _ Hv)) as H.
    simpl in H. rewrite H. reflexivity. }
  split; [| split].
  - unfold lookup, dict_contains. rewrite Hv. reflexivity.
  - unfold get_or_create, bind. rewrite Hb, Hb1, Hl. reflexivity.
  - unfold get_or_convert, bind. rewrite Hb, Hb1, Hl. reflexivity.
Qed.

Lemma lookup_by_id_ignores_other_filters_witness :
  get_or_convert Examples.Plant Examples.moss
    [("nofield__zz", VInt 0); ("id", VInt 1)] Examples.two_plants
  = (Return (RObj 0%nat), Examples.two_plants).
Proof.
  destruct (lookup_by_id_ignores_other_filters Examples.Plant Examples.moss
              [("nofield__zz", VInt 0); ("id", VInt 1)] (VInt 1)
              Examples.two_plants eq_refl eq_refl) as (_ & _ & E).
  rewrite E. reflexivity.
Defined.

Lemma live_with_instance (s : Session) (o : Obj) (x : Ref) :
  live s x = true -> live (with_instance s o) x = true.
Proof.
  unfold live, with_instance. simpl. rewrite length_app. simpl.
  intros H. apply Nat.ltb_lt in H. apply Nat.ltb_lt. lia.
Qed.

(** X16.  When the lookup misses on a well-formed session and
    [get_or_create] returns, with rows the engine accepted, what it returns
    is a new instance, which has a row when the call is over and had none
    after the lookup, and nothing is left pending. *)
Theorem get_or_create_miss_persists (obj : Model) (vals filters : dict)
  (session s1 s' : Session) (res : Ret) :
  wf_session session = true ->
  blank_filter filters = false ->
  lookup obj filters session = (Return RNone, s1) ->
  get_or_create obj vals filters session = (Return res, s') ->
  unique_keys s' = true ->
  res = RObj (length (heap s1))
  /\ has_row (length (heap s1)) (rows s1) = false
  /\ has_row (length (heap s1)) (rows s') = true
  /\ synced s'.
Proof.
  intros Hwf Hb Hl Hres _.
  destruct (lookup_miss obj filters session s1 Hl) as (Hs1 & _ & _).
  unfold wf_session in Hwf. apply andb_prop in Hwf. destruct Hwf as [Hwf _].
  apply andb_prop in Hwf. destruct Hwf as [Hrows _].
  destruct (flush_synced session Hrows) as [Hsync Hlive].
  rewrite <- Hs1 in Hsync, Hlive.
  set (o := {| obj_model := obj;
               obj_dict := map (fun f => (f, value_or_none (dict_get vals f)))
                             (fields obj) |}).
  assert (Hwf2 : wf_session (with_instance s1 o) = true).
  { unfold wf_session. destruct Hsync as (Hn & Hd & _). simpl.
    rewrite Hn, Hd. simpl. rewrite !andb_true_r.
    rewrite forallb_forall in *. intros row Hin.
    apply live_with_instance. apply Hlive. exact Hin. }
  assert (Hlive2 : forall x, In x (instances (One (length (heap s1)))) ->
                             live (with_instance s1 o) x = true).
  { intros x [<- | []]. unfold live, with_instance. simpl.
    rewrite length_app. simpl. apply Nat.ltb_lt. lia. }
  destruct (save_exact (One (length (heap s1))) (with_instance s1 o)
              Hwf2 Hlive2) as (E & Hs & Hr); [discriminate |].
  assert (Hcall : get_or_create obj vals filters session
                  = (Return (RObj (length (heap s1))),
                     flush (fold_left add_one
                              (instances (One (length (heap s1))))
                              (with_instance s1 o)))).
  { unfold get_or_create, bind. rewrite Hb, Hl. simpl.
    unfold construct. fold o.
    change {| heap := heap s1 ++ [o]; rows := rows s1; new := new s1;
              deleted := deleted s1 |} with (with_instance s1 o).
    rewrite E. reflexivity. }
  rewrite Hcall in Hres. inversion Hres; subst res s'. clear Hres.
  split; [reflexivity |]. split; [| split].
  - exact (live_rows_no_fresh s1 Hlive).
  - apply Hr. left. reflexivity.
  - exact Hs.
Qed.

Lemma get_or_create_miss_persists_witness :
  wf_session Examples.fern_session = true
  /\ lookup Examples.Plant [("name", VStr "Moss")] Examples.fern_session
     = (Return RNone, Examples.fern_session)
  /\ unique_keys (snd (get_or_create Examples.Plant Examples.moss
                         [("name", VStr "Moss")] Examples.fern_session))
     = true
  /\ fst (get_or_create Examples.Plant Examples.moss [("name", VStr "Moss")]
            Examples.fern_session)
     = Return (RObj 1%nat)
  /\ has_row 1%nat
       (rows (snd (get_or_create Examples.Plant Examples.moss
                     [("name", VStr "Moss")] Examples.fern_session)))
     = true.
Proof.
  split; [reflexivity |]. split; [reflexivity |]. split; [reflexivity |].
  split; [reflexivity |].
  destruct (get_or_create_miss_persists Examples.Plant Examples.moss
              [("name", VStr "Moss")] Examples.fern_session
              Examples.fern_session
              (snd (get_or_create Examples.Plant Examples.moss
                      [("name", VStr "Moss")] Examples.fern_session))
              (RObj 1%nat) eq_refl eq_refl eq_refl eq_refl eq_refl)
    as (_ & _ & H & _).
  exact H.
Defined.

(** ** Sessions the commit wrapper does not see *)

(** X17.  A [Session] passed under a keyword other than [session] and [db]
    is not looked at: with no [Session] under those two keywords nor among
    the positional arguments, the wrapper commits nothing and rolls nothing
    back, whatever the other keyword arguments hold. *)
Theorem db_commit_other_keyword {W T : Type}
  (session_commit session_rollback : nat -> W -> option Exc * W)
  (func : list Arg -> list (string * Arg) -> M W T)
  (args : list Arg) (kwargs : list (string * Arg)) (w : W) :
  first_session args = None ->
  kw_session kwargs "session" = None ->
  kw_session kwargs "db" = None ->
  _extract_session args kwargs = None
  /\ db_commit session_commit session_rollback func args kwargs w
     = (func args kwargs w, []).
Proof.
  intros Ha Hs Hd.
  assert (E : _extract_session args kwargs = None).
  { rewrite extract_session_order, Hs, Hd. exact Ha. }
  split; [exact E |]. apply db_commit_no_session. exact E.
Qed.

Lemma db_commit_other_keyword_witness :
  db_commit Examples.log_commit Examples.log_rollback Examples.count_args
    [AOther (VInt 1)] [("sess", ASession 7)] []
  = (Return 2%nat, ["call"], []).
Proof.
  destruct (db_commit_other_keyword Examples.log_commit Examples.log_rollback
              Examples.count_args [AOther (VInt 1)] [("sess", ASession 7)] []
              eq_refl eq_refl eq_refl) as [_ E].
  rewrite E. reflexivity.
Defined.

(** ** The merge of [update] *)

(** X18.  The dictionary [update] sets the attributes of the instance from
    never has the key [id], also when the payload sets it; a field the
    payload sets has the value of the payload, and every other field of the
    instance has the value it had. *)
Theorem update_merge_dictionary (db_result_dict : dict) (vals : Payload)
  (k : string) :
  k <> "id" ->
  NoDup (map fst (model_dump_exclude_unset vals)) ->
  dict_get (merged_dict db_result_dict vals) "id" = None
  /\ dict_get (merged_dict db_result_dict vals) k
     = match dict_get (model_dump_exclude_unset vals) k with
       | Some v => Some v
       | None => dict_get db_result_dict k
       end.
Proof.
  intros Hk Hnd.
  destruct (merged_dict_frame db_result_dict vals) as (Hid & Hset & Hkeep).
  split; [exact Hid |].
  destruct (dict_get (model_dump_exclude_unset vals) k) as [v |] eqn:E.
  - exact (Hset k v Hk Hnd E).
  - exact (Hkeep k Hk E).
Qed.

Lemma update_merge_dictionary_witness :
  dict_get
    (merged_dict
       [("id", VInt 1); ("name", VStr "Fern"); ("species", VStr "Fern sp.")]
       [ {| pf_name := "id"; pf_value := VInt 9; pf_set := true |};
         {| pf_name := "name"; pf_value := VStr "Moss"; pf_set := true |};
         {| pf_name := "species"; pf_value := VNone; pf_set := false |} ])
    "species"
  = Some (VStr "Fern sp.").
Proof.
  destruct (update_merge_dictionary
              [("id", VInt 1); ("name", VStr "Fern");
               ("species", VStr "Fern sp.")]
              [ {| pf_name := "id"; pf_value := VInt 9; pf_set := true |};
                {| pf_name := "name"; pf_value := VStr "Moss"; pf_set := true |};
                {| pf_name := "species"; pf_value := VNone; pf_set := false |} ]
              "species") as [_ E].
  - discriminate.
  - simpl. repeat constructor; simpl; intuition discriminate.
  - rewrite E. reflexivity.
Defined.

(** ** The write endpoints *)

Section RouterFacts.

Variable session_commit : nat -> Session -> option Exc * Session.
Variable session_rollback : nat -> Session -> option Exc * Session.
Variable model : Model.



(** X20.  [delete_item] and [update_item] for an id without an instance,
    called with a session among the arguments: [NotFoundError], of status
    404, after one rollback of that session and no commit. *)
Theorem write_endpoint_not_found (id : Z) (payload : Payload)
  (args : list Arg) (kwargs : list (string * Arg)) (session s1 : Session)
  (s : nat) :
  _extract_session args kwargs = Some s ->
  session_get model (VInt id) session = (Return None, s1) ->
  Api.delete_item session_commit session_rollback model id args kwargs session
  = (Raise (NotFoundError (model_name model ++ " not found")),
     snd (session_rollback s s1), [Rollback s])
  /\ Api.update_item session_commit session_rollback model id payload
       args kwargs session
     = (Raise (NotFoundError (model_name model ++ " not found")),
        snd (session_rollback s s1), [Rollback s])
  /\ status_code_of (NotFoundError (model_name model ++ " not found"))
     = Some 404.
Proof.
  intros Hs Hg.
  unfold Api.delete_item, Api.update_item, Api.delete_item_body,
    Api.update_item_body, db_commit, on_exception, delete, update,
    db_error, bind.
  rewrite Hs, Hg. simpl.
  destruct (session_rollback s s1) as [o s2]. simpl. auto.
Qed.

End RouterFacts.


Lemma write_endpoint_not_found_witness :
  Api.delete_item Scenarios.commit_flush Scenarios.rollback_nop Examples.Plant
    2 [] [("id", AOther (VInt 2)); ("session", ASession 7)]
    Examples.fern_session
  = (Raise (NotFoundError "Plant not found"), Examples.fern_session,
     [Rollback 7]).
Proof.
  destruct (write_endpoint_not_found Scenarios.commit_flush
              Scenarios.rollback_nop Examples.Plant 2 []
              [] [("id", AOther (VInt 2)); ("session", ASession 7)]
              Examples.fern_session Examples.fern_session 7%nat
              eq_refl eq_refl) as [E _].
  exact E.
Defined.

(** ** The engine *)

(** X21.  Once [get_engine] has made the engine, every later call returns
    that engine and keeps it: the [echo] of a later call is not applied. *)
Theorem get_engine_singleton (environ : Db.Environ) (echo echo' : bool)
  (g : option Db.Engine) :
  let (e, g') := Db.get_engine environ echo g in
  g' = Some e /\ Db.get_engine environ echo' g' = (e, g').
Proof.
  unfold Db.get_engine. destruct g as [e |]; simpl; auto.
Qed.

(** X22.  The first call of [get_engine] makes the engine for
    [DATABASE_URL] with the [echo] given, and passes
    [check_same_thread = False] exactly when the URL starts with [sqlite].
    With [DATABASE_URL] unset in the environment that is the case, the URL
    being the SQLite default; a variable set to the empty string is not
    replaced by the default. *)
Theorem get_engine_first_call (environ : Db.Environ) (echo : bool) :
  let e := fst (Db.get_engine environ echo None) in
  Db.engine_url e = Db.DATABASE_URL environ
  /\ Db.engine_echo e = echo
  /\ Db.engine_connect_args e
     = (if String.prefix "sqlite" (Db.DATABASE_URL environ)
        then [("check_same_thread", VBool false)] else [])
  /\ ((forall v, ~ In ("DATABASE_URL", v) environ) ->
      Db.engine_url e = "sqlite:///./database.db"
      /\ Db.engine_connect_args e = [("check_same_thread", VBool false)])
  /\ (Db.DATABASE_URL (("DATABASE_URL", "") :: environ) = "").
Proof.
  simpl. split; [reflexivity |]. split; [reflexivity |].
  split; [destruct (String.prefix "sqlite" (Db.DATABASE_URL environ));
          reflexivity |].
  split; [| reflexivity]. intros Hno.
  assert (E : Db.DATABASE_URL environ = "sqlite:///./database.db").
  { unfold Db.DATABASE_URL. induction environ as [| [k v] rest IH];
      [reflexivity |].
    cbn [Db.environ_get].
    destruct (String.eqb_spec "DATABASE_URL" k) as [<- | Hne].
    - exfalso. apply (Hno v). left. reflexivity.
    - apply IH. intros v' Hin. apply (Hno v'). right. exact Hin. }
  rewrite E. split; reflexivity.
Qed.

Lemma get_engine_first_call_witness :
  Db.engine_connect_args
    (fst (Db.get_engine [("HOME", "/root")] true None))
  = [("check_same_thread", VBool false)]
  /\ Db.engine_connect_args
       (fst (Db.get_engine [("DATABASE_URL", "postgresql://db/app")] true
               None))
     = [].
Proof.
  split.
  - destruct (get_engine_first_call [("HOME", "/root")] true)
      as (_ & _ & _ & H & _).
    apply H. intros v [H0 | []]. discriminate.
  - destruct (get_engine_first_call
                [("DATABASE_URL", "postgresql://db/app")] true)
      as (_ & _ & E & _).
    rewrite E. reflexivity.
Defined.

(** ** [get_or_create] twice *)

(** X23.  When the lookup hits on a well-formed session, [get_or_create]
    returns the instance found, and a second call with the same filters, on
    the session the first left, returns the same instance and leaves that
    session as it is, whatever values it is given to create from. *)
Theorem get_or_create_hit_again (obj : Model) (vals vals' filters : dict)
  (session s1 : Session) (r : Ref) :
  wf_session session = true ->
  blank_filter filters = false ->
  lookup obj filters session = (Return (RObj r), s1) ->
  get_or_create obj vals filters session = (Return (RObj r), s1)
  /\ get_or_create obj vals' filters s1 = (Return (RObj r), s1).
Proof.
  intros Hwf Hb Hl.
  unfold wf_session in Hwf. apply andb_prop in Hwf. destruct Hwf as [Hwf _].
  apply andb_prop in Hwf. destruct Hwf as [Hrows _].
  destruct (flush_synced session Hrows) as [Hsync _].
  assert (Hl1 : lookup obj filters s1 = (Return (RObj r), s1)).
  { unfold lookup in *. destruct (dict_contains filters "id").
    - unfold get_by_id, db_error, bind, ret, session_get in *.
      set (id := value_or_none (dict_get filters "id")) in *.
      destruct (find_identity obj id (rows session)) as [r0 |] eqn:E0.
      + inversion Hl; subst. rewrite E0. reflexivity.
      + destruct (find_identity obj id (rows (flush session))) as [r1 |] eqn:E1;
          cbn [of_option] in Hl; inversion Hl; subst.
        rewrite E1. reflexivity.
    - rewrite get_spec in Hl. rewrite get_spec.
      destruct (get_stmt obj (Some filters) None) as [stmt | e];
        [| discriminate].
      assert (Hs1 : s1 = flush session) by (inversion Hl; reflexivity).
      subst s1. rewrite (flush_synced_same (flush session) Hsync).
      exact Hl. }
  unfold get_or_create, bind. rewrite Hb, Hl, Hl1. split; reflexivity.
Qed.

Lemma get_or_create_hit_again_witness :
  get_or_create Examples.Plant Examples.fern [("name", VStr "Fern")]
    Examples.two_plants
  = (Return (RObj 0%nat), Examples.two_plants)
  /\ get_or_create Examples.Plant Examples.moss [("name", VStr "Fern")]
       Examples.two_plants
     = (Return (RObj 0%nat), Examples.two_plants).
Proof.
  exact (get_or_create_hit_again Examples.Plant Examples.fern Examples.moss
           [("name", VStr "Fern")] Examples.two_plants Examples.two_plants
           0%nat eq_refl eq_refl eq_refl).
Defined.
